(** * Uptime-page: probing, batching, scheduling and bar aggregation

    A shallow embedding of [app/services/ping_service.py] and of
    [app/services/server_service.py]: the bar aggregation, the server CRUD
    operations, the status and history queries, the statistics and the
    record cleanup.

    Modelling conventions.
    - Instants ([datetime], UTC) are [Z] seconds since the epoch.
    - Python floats (response times, percentages) are exact rationals [Q];
      [round(x, n)] is rounding half to even at [n] decimals.
    - The database is a list of rows; the SQL [GROUP BY ... ORDER BY] queries
      are written out as a filter, an ordered set of group keys and one
      aggregate per group.
    - A Python [dict] is an association list, most recent binding first. *)

From Stdlib Require Import ZArith QArith Qround List Bool Lia Lqa String Permutation Sorted.
Import ListNotations.
Open Scope Z_scope.

(** ** Python numeric helpers *)

Definition Qltb (a b : Q) : bool := negb (Qle_bool b a).

(** Round half to even of a rational to an integer. *)
Definition round_half_even (y : Q) : Z :=
  let f := Qfloor y in
  let d := (y - inject_Z f)%Q in
  if Qltb d (1 # 2) then f
  else if Qltb (1 # 2) d then f + 1
  else if Z.even f then f else f + 1.

(** [round(x, n)]. *)
Definition py_round (x : Q) (n : nat) : Q :=
  let p := 10 ^ Z.of_nat n in
  round_half_even (x * inject_Z p) # Z.to_pos p.

(** ** Data model ([app/models.py]) *)

Inductive StatusEnum := UP | DOWN.

Definition StatusEnum_eqb (a b : StatusEnum) : bool :=
  match a, b with
  | UP, UP | DOWN, DOWN => true
  | _, _ => false
  end.

Record UptimeRecord := mkUptimeRecord {
  server_id : Z;
  status : StatusEnum;
  response_time_ms : option Q;
  timestamp : Z
}.

Record Server := mkServer {
  srv_id : Z;
  srv_name : string;
  srv_url : string;
  srv_logo_url : option string;
  srv_display_order : Z;
  srv_created_at : Z
}.

(** ** [ping_server] *)

(** What [await _http_client.get(url, timeout=timeout)] did: a response with
    its status code, or one of the exceptions the [try] distinguishes. *)
Inductive get_result :=
  | Response (status_code : Z)
  | TimeoutException
  | RequestError
  | OtherException.

(** [ping_server url timeout]: [start_time] and [end_time] are the two
    [time.perf_counter()] readings (seconds) around the request. *)
Definition ping_server (start_time end_time : Q) (r : get_result)
  : StatusEnum * option Q :=
  match r with
  | Response code =>
      let response_time_ms := ((end_time - start_time) * 1000)%Q in
      if code <? 400 then (UP, Some (py_round response_time_ms 2))
      else (DOWN, Some (py_round response_time_ms 2))
  | TimeoutException => (DOWN, None)
  | RequestError => (DOWN, None)
  | OtherException => (DOWN, None)
  end.

(** ** Association lists for Python dicts *)

Definition dict (V : Type) := list (Z * V).

Fixpoint dict_get {V} (k : Z) (d : dict V) : option V :=
  match d with
  | [] => None
  | (k', v) :: d' => if k =? k' then Some v else dict_get k d'
  end.

(** [d[k] = v]. *)
Definition dict_set {V} (k : Z) (v : V) (d : dict V) : dict V :=
  (k, v) :: filter (fun p => negb (fst p =? k)) d.

(** [d.get(k, default)]. *)
Definition dict_get_default {V} (k : Z) (d : dict V) (default : V) : V :=
  match dict_get k d with Some v => v | None => default end.

(** ** Time buckets *)

Inductive resolution := day | hour.

Definition unit_seconds (res : resolution) : Z :=
  match res with day => 86400 | hour => 3600 end.

(** SQL [date_trunc(trunc_interval, timestamp)] (UTC session). *)
Definition date_trunc (res : resolution) (ts : Z) : Z :=
  ts - ts mod unit_seconds res.

(** The dict key made from a [date_trunc] bucket: [bucket.date()] for days
    (a day number), [bucket.replace(minute=0, second=0, microsecond=0)] for
    hours. *)
Definition bucket_key (res : resolution) (bucket : Z) : Z :=
  match res with
  | day => bucket / 86400
  | hour => bucket - bucket mod 3600
  end.

(** [since = now - timedelta(days|hours=count)]. *)
Definition window_since (res : resolution) (now count : Z) : Z :=
  now - count * unit_seconds res.

(** The first generated key: [(now - timedelta(days=count - 1)).date()] or
    [(now - timedelta(hours=count - 1)).replace(minute=0, ...)]. *)
Definition first_key (res : resolution) (now count : Z) : Z :=
  match res with
  | day => (now - (count - 1) * 86400) / 86400
  | hour => let t := now - (count - 1) * 3600 in t - t mod 3600
  end.

(** [current += timedelta(days=1)] or [timedelta(hours=1)]. *)
Definition next_key (res : resolution) (current : Z) : Z :=
  match res with day => current + 1 | hour => current + 3600 end.

(** The ["date"] field of a bar made from [current]. *)
Definition bar_date_of (res : resolution) (current : Z) : Z :=
  match res with
  | day => current * 86400
  | hour => current
  end.

(** ** SQL grouping *)

(** Insertion into a strictly ordered list without duplicates: the distinct
    group keys of [GROUP BY ... ORDER BY]. *)
Fixpoint insert_uniq {A} (cmp : A -> A -> comparison) (x : A) (l : list A)
  : list A :=
  match l with
  | [] => [x]
  | y :: t =>
      match cmp x y with
      | Lt => x :: l
      | Eq => l
      | Gt => y :: insert_uniq cmp x t
      end
  end.

Definition group_keys {A B} (cmp : A -> A -> comparison) (f : B -> A)
  (l : list B) : list A :=
  fold_left (fun acc r => insert_uniq cmp (f r) acc) l [].

Definition pair_compare (p q : Z * Z) : comparison :=
  match Z.compare (fst p) (fst q) with
  | Eq => Z.compare (snd p) (snd q)
  | c => c
  end.

Fixpoint filter_some {A} (l : list (option A)) : list A :=
  match l with
  | [] => []
  | Some x :: t => x :: filter_some t
  | None :: t => filter_some t
  end.

(** SQL [avg(response_time_ms)]: NULLs ignored, NULL over no value. *)
Definition sql_avg (l : list (option Q)) : option Q :=
  match filter_some l with
  | [] => None
  | vs => Some (fold_right Qplus 0 vs / inject_Z (Z.of_nat (List.length vs)))%Q
  end.

Definition count_status (s : StatusEnum) (g : list UptimeRecord) : Z :=
  Z.of_nat (List.length (filter (fun r => StatusEnum_eqb (status r) s) g)).

(** One result row of the aggregation query. *)
Record Row := mkRow {
  row_server_id : Z;
  row_bucket : Z;
  row_total : Z;
  row_up_count : Z;
  row_down_count : Z;
  row_avg_latency : option Q
}.

(** The select list [count(), sum(case UP), sum(case DOWN), avg(...)] over
    the records of one group. *)
Definition aggregate (sid bucket : Z) (g : list UptimeRecord) : Row :=
  {| row_server_id := sid;
     row_bucket := bucket;
     row_total := Z.of_nat (List.length g);
     row_up_count := count_status UP g;
     row_down_count := count_status DOWN g;
     row_avg_latency := sql_avg (map response_time_ms g) |}.

(** The per-bucket dict [{"total", "up", "down", "avg_latency"}] (the unused
    ["response_time_sum"] / ["response_time_count"] zeros are left out). *)
Record BucketData := mkBucketData {
  d_total : Z;
  d_up : Z;
  d_down : Z;
  d_avg_latency : Q
}.

(** [x or 0] for a nullable number (a falsy [0.0] also gives [0]). *)
Definition or_zero (x : option Q) : Q :=
  match x with Some v => v | None => 0%Q end.

Definition data_of_row (row : Row) : BucketData :=
  {| d_total := row_total row;
     d_up := row_up_count row;
     d_down := row_down_count row;
     d_avg_latency := or_zero (row_avg_latency row) |}.

Definition default_data : BucketData :=
  {| d_total := 0; d_up := 0; d_down := 0; d_avg_latency := 0 |}.

(** ** Bars *)

Inductive bar_status := unknown | down | partial | degraded | up.

Record Bar := mkBar {
  bar_date : Z;
  bar_status_of : bar_status;
  bar_uptime_percentage : Q;
  bar_checks : Z;
  bar_avg_response_time_ms : option Q
}.

(** ** [_calculate_bars] *)

(** The generation loop of [_calculate_bars]: [count] iterations from
    [current], each looking its key up in [grouped_data]. *)
Fixpoint bars_loop (res : resolution) (grouped_data : dict BucketData)
  (n : nat) (current : Z) : list Bar :=
  match n with
  | O => []
  | S n' =>
      let key := current in
      let data := dict_get_default key grouped_data default_data in
      let total := d_total data in
      let uptime_pct :=
        if 0 <? total then (inject_Z (d_up data) / inject_Z total * 100)%Q
        else 0%Q in
      let avg_latency := d_avg_latency data in
      let st :=
        if total =? 0 then unknown
        else if Qltb uptime_pct 50 then down
        else if Qltb uptime_pct 100 then partial
        else if Qle_bool 1000 avg_latency then degraded
        else up in
      {| bar_date := bar_date_of res current;
         bar_status_of := st;
         bar_uptime_percentage := py_round uptime_pct 2;
         bar_checks := total;
         bar_avg_response_time_ms :=
           if 0 <? total then Some (py_round avg_latency 2) else None |}
      :: bars_loop res grouped_data n' (next_key res current)
  end.

(** The records the single-server query reads. *)
Definition fetch_single (db : list UptimeRecord) (sid since : Z)
  : list UptimeRecord :=
  filter (fun r => (server_id r =? sid) && (since <=? timestamp r)) db.

Definition rows_single (res : resolution) (sid : Z)
  (fetched : list UptimeRecord) : list Row :=
  map (fun b =>
         aggregate sid b
           (filter (fun r => date_trunc res (timestamp r) =? b) fetched))
      (group_keys Z.compare (fun r => date_trunc res (timestamp r)) fetched).

Definition grouped_of_rows (res : resolution) (rows : list Row)
  : dict BucketData :=
  fold_left (fun d row =>
               dict_set (bucket_key res (row_bucket row)) (data_of_row row) d)
            rows [].

Definition _calculate_bars (db : list UptimeRecord) (sid now count : Z)
  (res : resolution) : list Bar :=
  let since := window_since res now count in
  let rows := rows_single res sid (fetch_single db sid since) in
  let grouped_data := grouped_of_rows res rows in
  bars_loop res grouped_data (Z.to_nat count) (first_key res now count).

(** ** [_calculate_bars_bulk] *)

(** The generation loop of [_calculate_bars_bulk], written out again as the
    source repeats it. *)
Fixpoint bulk_bars_loop (res : resolution) (server_data : dict BucketData)
  (n : nat) (current : Z) : list Bar :=
  match n with
  | O => []
  | S n' =>
      let key := current in
      let data := dict_get_default key server_data default_data in
      let total := d_total data in
      let uptime_pct :=
        if 0 <? total then (inject_Z (d_up data) / inject_Z total * 100)%Q
        else 0%Q in
      let avg_latency := d_avg_latency data in
      let st :=
        if total =? 0 then unknown
        else if Qltb uptime_pct 50 then down
        else if Qltb uptime_pct 100 then partial
        else if Qle_bool 1000 avg_latency then degraded
        else up in
      {| bar_date := bar_date_of res current;
         bar_status_of := st;
         bar_uptime_percentage := py_round uptime_pct 2;
         bar_checks := total;
         bar_avg_response_time_ms :=
           if 0 <? total then Some (py_round avg_latency 2) else None |}
      :: bulk_bars_loop res server_data n' (next_key res current)
  end.

Definition fetch_bulk (db : list UptimeRecord) (server_ids : list Z)
  (since : Z) : list UptimeRecord :=
  filter (fun r => existsb (Z.eqb (server_id r)) server_ids
                   && (since <=? timestamp r)) db.

Definition rows_bulk (res : resolution) (fetched : list UptimeRecord)
  : list Row :=
  map (fun '(sid, b) =>
         aggregate sid b
           (filter (fun r => (server_id r =? sid)
                             && (date_trunc res (timestamp r) =? b)) fetched))
      (group_keys pair_compare
         (fun r => (server_id r, date_trunc res (timestamp r))) fetched).

(** [server_groups[row.server_id][key] = {...}] over a [defaultdict(dict)]. *)
Definition server_groups_of_rows (res : resolution) (rows : list Row)
  : dict (dict BucketData) :=
  fold_left (fun sg row =>
               let inner := dict_get_default (row_server_id row) sg [] in
               dict_set (row_server_id row)
                 (dict_set (bucket_key res (row_bucket row))
                    (data_of_row row) inner) sg)
            rows [].

Definition _calculate_bars_bulk (db : list UptimeRecord) (server_ids : list Z)
  (now count : Z) (res : resolution) : dict (list Bar) :=
  match server_ids with
  | [] => []
  | _ =>
      let since := window_since res now count in
      let rows := rows_bulk res (fetch_bulk db server_ids since) in
      let server_groups := server_groups_of_rows res rows in
      let start_current := first_key res now count in
      fold_left (fun final_results sid =>
                   let server_data := dict_get_default sid server_groups [] in
                   dict_set sid
                     (bulk_bars_loop res server_data (Z.to_nat count)
                        start_current) final_results)
                server_ids []
  end.

(** ** Callers of the aggregation *)

Record Database := mkDatabase {
  db_servers : list Server;
  db_records : list UptimeRecord
}.

(** [ORDER BY display_order ASC, created_at DESC]. *)
Definition server_before (a b : Server) : bool :=
  (srv_display_order a <? srv_display_order b)
  || ((srv_display_order a =? srv_display_order b)
      && (srv_created_at b <? srv_created_at a)).

Fixpoint insert_server (s : Server) (l : list Server) : list Server :=
  match l with
  | [] => [s]
  | t :: l' => if server_before s t then s :: l else t :: insert_server s l'
  end.

Definition get_servers (d : Database) : list Server :=
  fold_right insert_server [] (db_servers d).

(** [get_uptime_bars(db, server, requested_days)] with [datetime.now()] as
    the argument [now]. *)
Definition get_uptime_bars (d : Database) (server : Server) (now : Z)
  (requested_days : Z) : list Bar :=
  _calculate_bars (db_records d) (srv_id server) now 24 hour.

(** [max(timestamp)] of one server, [None] when it has no record. *)
Definition max_ts (recs : list UptimeRecord) (sid : Z) : option Z :=
  fold_left (fun acc r =>
               if server_id r =? sid then
                 match acc with
                 | Some m => Some (Z.max m (timestamp r))
                 | None => Some (timestamp r)
                 end
               else acc) recs None.

(** The join with the [max_ts] subquery, collected into
    [{r.server_id: r for r in ...}] (the last row of a server wins). *)
Definition latest_records_of (recs : list UptimeRecord) (server_ids : list Z)
  : dict UptimeRecord :=
  fold_left (fun d r => dict_set (server_id r) r d)
    (filter (fun r => existsb (Z.eqb (server_id r)) server_ids
                      && match max_ts recs (server_id r) with
                         | Some m => timestamp r =? m
                         | None => false
                         end) recs) [].

(** [sum(b["uptime_percentage"] * b["checks"] for b in bars) / total_checks],
    [0] without checks. *)
Definition weighted_uptime_of (bars : list Bar) : Q :=
  let total_checks := fold_right Z.add 0 (map bar_checks bars) in
  if 0 <? total_checks then
    (fold_right Qplus 0
       (map (fun b => bar_uptime_percentage b * inject_Z (bar_checks b))%Q bars)
     / inject_Z total_checks)%Q
  else 0%Q.

Record ServerWithBars := mkServerWithBars {
  sw_id : Z;
  sw_name : string;
  sw_url : string;
  sw_logo_url : option string;
  sw_display_order : Z;
  sw_created_at : Z;
  sw_current_status : option StatusEnum;
  sw_last_ping : option Z;
  sw_response_time_ms : option Q;
  sw_uptime_percentage : Q;
  sw_uptime_bars : list Bar
}.

Definition get_servers_with_uptime_bars (d : Database) (now : Z) (days : Z)
  : list ServerWithBars :=
  let servers := get_servers d in
  match servers with
  | [] => []
  | _ =>
      let server_ids := map srv_id servers in
      let latest_records := latest_records_of (db_records d) server_ids in
      let bars_map := _calculate_bars_bulk (db_records d) server_ids now 24 hour in
      map (fun server =>
             let record := dict_get (srv_id server) latest_records in
             let bars := dict_get_default (srv_id server) bars_map [] in
             let weighted_uptime := weighted_uptime_of bars in
             {| sw_id := srv_id server;
                sw_name := srv_name server;
                sw_url := srv_url server;
                sw_logo_url := srv_logo_url server;
                sw_display_order := srv_display_order server;
                sw_created_at := srv_created_at server;
                sw_current_status := option_map status record;
                sw_last_ping := option_map timestamp record;
                sw_response_time_ms :=
                  match record with
                  | Some r => response_time_ms r
                  | None => None
                  end;
                sw_uptime_percentage := py_round weighted_uptime 3;
                sw_uptime_bars := bars |}) servers
  end.

(** ** [ping_all_servers] and [ping_and_record] *)

(** Where the [try] body of [ping_and_record] raises, if it does: before its
    [db.add(record)] (in [ping_server] or building or adding the record), or
    after it (the [logger.debug] line). *)
Inductive try_fault := NoFault | RaisesBeforeAdd | RaisesAfterAdd.

(** What happens while one server is handled: the outcome [ping_server]
    returns, where the [try] body raises, and whether the fallback
    [db.add] of the DOWN record raises too. *)
Record TargetRun := mkTargetRun {
  probe_outcome : StatusEnum * option Q;
  run_fault : try_fault;
  fallback_add_raises : bool
}.

Definition new_record (sid : Z) (st : StatusEnum) (rt : option Q) (now : Z)
  : UptimeRecord :=
  {| server_id := sid; status := st; response_time_ms := rt;
     timestamp := now |}.

(** [ping_and_record(db, server)]: the session's pending records after the
    call, and whether an exception left it. Records are stamped with the
    insertion time [now] ([server_default=func.now()]). *)
Definition ping_and_record (session : list UptimeRecord) (server : Server)
  (now : Z) (t : TargetRun) : list UptimeRecord * bool :=
  let sid := srv_id server in
  let fallback s :=
    if fallback_add_raises t then (s, true)
    else (s ++ [new_record sid DOWN None now], false) in
  let record := new_record sid (fst (probe_outcome t)) (snd (probe_outcome t)) now in
  match run_fault t with
  | NoFault => (session ++ [record], false)
  | RaisesBeforeAdd => fallback session
  | RaisesAfterAdd => fallback (session ++ [record])
  end.

(** [ping_all_servers()]: the store after one batch. [run] says how each
    server's handling goes; [commit_ok] whether [db.commit()] succeeds (on
    failure the session is rolled back). The handlers run concurrently under
    [asyncio.gather]; [completion] is the order in which they reach their
    [db.add] calls, a permutation of the servers fixed by the timing of the
    probes. A handler has no [await] between its adds, so they are not
    interleaved with another handler's; the handlers only append to the
    session, and [gather(..., return_exceptions=True)] swallows what they
    raise. *)
Definition ping_all_servers (d : Database) (now : Z)
  (run : Server -> TargetRun) (completion : list Server) (commit_ok : bool)
  : Database :=
  let servers := get_servers d in
  match servers with
  | [] => d
  | _ =>
      let session :=
        fold_left (fun s server => fst (ping_and_record s server now (run server)))
          completion [] in
      if commit_ok then
        {| db_servers := db_servers d; db_records := db_records d ++ session |}
      else d
  end.

(** ** The ping scheduler *)

(** An [asyncio.Task] running [ping_loop]: it only finishes when cancelled,
    since the loop body catches every [Exception]. *)
Inductive task_state := Active | Done.

(** The module globals [_ping_task] (an index into all tasks ever created)
    and [_running]. *)
Record Scheduler := mkScheduler {
  tasks : list task_state;
  _ping_task : option nat;
  _running : bool
}.

Definition scheduler_init : Scheduler :=
  {| tasks := []; _ping_task := None; _running := false |}.

Fixpoint set_nth {A} (i : nat) (x : A) (l : list A) : list A :=
  match l, i with
  | [], _ => []
  | _ :: t, O => x :: t
  | y :: t, S i' => y :: set_nth i' x t
  end.

Definition task_done (s : Scheduler) (i : nat) : bool :=
  match nth_error (tasks s) i with Some Active => false | _ => true end.

Definition start_ping_scheduler (s : Scheduler) : Scheduler :=
  match _ping_task s with
  | Some i => if negb (task_done s i) then s
              else {| tasks := tasks s ++ [Active];
                      _ping_task := Some (List.length (tasks s));
                      _running := true |}
  | None => {| tasks := tasks s ++ [Active];
               _ping_task := Some (List.length (tasks s));
               _running := true |}
  end.

(** [stop_ping_scheduler()]: cancelling the task and awaiting it finishes
    it before the call returns. *)
Definition stop_ping_scheduler (s : Scheduler) : Scheduler :=
  match _ping_task s with
  | Some i => {| tasks := set_nth i Done (tasks s); _ping_task := None;
                 _running := false |}
  | None => {| tasks := tasks s; _ping_task := None; _running := false |}
  end.

Inductive sched_state := STOPPED | RUNNING.

Definition state_of (s : Scheduler) : sched_state :=
  match _ping_task s with
  | Some i => if task_done s i then STOPPED else RUNNING
  | None => STOPPED
  end.

(** The number of [ping_loop] tasks still running. *)
Definition active_loops (s : Scheduler) : nat :=
  List.length (filter (fun t => match t with Active => true | Done => false end)
                 (tasks s)).

Inductive reachable : Scheduler -> Prop :=
  | reach_init : reachable scheduler_init
  | reach_start s : reachable s -> reachable (start_ping_scheduler s)
  | reach_stop s : reachable s -> reachable (stop_ping_scheduler s).

(** ** Auxiliary views used by the proofs *)

(** The body of both generation loops, as one function of the key and the
    looked-up data. *)
Definition make_bar (res : resolution) (current : Z) (data : BucketData) : Bar :=
  let total := d_total data in
  let uptime_pct :=
    if 0 <? total then (inject_Z (d_up data) / inject_Z total * 100)%Q
    else 0%Q in
  let avg_latency := d_avg_latency data in
  let st :=
    if total =? 0 then unknown
    else if Qltb uptime_pct 50 then down
    else if Qltb uptime_pct 100 then partial
    else if Qle_bool 1000 avg_latency then degraded
    else up in
  {| bar_date := bar_date_of res current;
     bar_status_of := st;
     bar_uptime_percentage := py_round uptime_pct 2;
     bar_checks := total;
     bar_avg_response_time_ms :=
       if 0 <? total then Some (py_round avg_latency 2) else None |}.

Fixpoint gen_bars (res : resolution) (lookup : Z -> BucketData) (n : nat)
  (current : Z) : list Bar :=
  match n with
  | O => []
  | S n' => make_bar res current (lookup current)
            :: gen_bars res lookup n' (next_key res current)
  end.

(** The dict key a record falls into. *)
Definition rec_key (res : resolution) (r : UptimeRecord) : Z :=
  bucket_key res (date_trunc res (timestamp r)).

(** The records of [fetched] that fall into key [k]. *)
Definition bucket_records (res : resolution) (fetched : list UptimeRecord)
  (k : Z) : list UptimeRecord :=
  filter (fun r => rec_key res r =? k) fetched.

(** The per-bucket data computed straight from a group of records. *)
Definition bucket_data (g : list UptimeRecord) : BucketData :=
  {| d_total := Z.of_nat (List.length g);
     d_up := count_status UP g;
     d_down := count_status DOWN g;
     d_avg_latency := or_zero (sql_avg (map response_time_ms g)) |}.

(** The key of the [i]-th generated bar. *)
Fixpoint iter_key (res : resolution) (i : nat) (current : Z) : Z :=
  match i with O => current | S i' => iter_key res i' (next_key res current) end.

(** The key of the bucket numbered [c] (its start divided by the unit). *)
Definition key_of_index (res : resolution) (c : Z) : Z :=
  match res with day => c | hour => 3600 * c end.

(** The status tier of a group of records following the specification's
    rules, in their priority order, over the exact percentage
    up/total x 100 and the average of the present response times. *)
Definition spec_tier (g : list UptimeRecord) : bar_status :=
  let total := Z.of_nat (List.length g) in
  let pct := (inject_Z (count_status UP g) / inject_Z total * 100)%Q in
  if total =? 0 then unknown
  else if Qltb pct 50 then down
  else if Qle_bool 50 pct && Qltb pct 100 then partial
  else if Qeq_bool pct 100
          && match sql_avg (map response_time_ms g) with
             | Some a => Qle_bool 1000 a
             | None => false
             end then degraded
  else up.

(** The record a server's handling leaves when neither the fallback add nor
    anything after the first add raises. *)
Definition expected_record (now : Z) (run : Server -> TargetRun) (s : Server)
  : UptimeRecord :=
  match run_fault (run s) with
  | NoFault => new_record (srv_id s) (fst (probe_outcome (run s)))
                 (snd (probe_outcome (run s))) now
  | _ => new_record (srv_id s) DOWN None now
  end.

Definition is_active (t : task_state) : bool :=
  match t with Active => true | Done => false end.

(** ** Server CRUD ([app/services/server_service.py]) *)

(** [get_server(db, server_id)]: [WHERE id = server_id], the id being the
    primary key. *)
Definition get_server (d : Database) (sid : Z) : option Server :=
  find (fun s => srv_id s =? sid) (db_servers d).

(** The [ServerCreate] payload. *)
Record ServerCreate := mkServerCreate {
  sc_name : string;
  sc_url : string;
  sc_logo_url : option string;
  sc_display_order : Z
}.

(** [ORDER BY display_order DESC LIMIT 1] (the first of the largest). *)
Definition last_server_of (l : list Server) : option Server :=
  fold_left (fun acc s =>
               match acc with
               | Some m => if srv_display_order m <? srv_display_order s
                           then Some s else acc
               | None => Some s
               end) l None.

(** [create_server(db, server_data)]: [new_id] is the id the sequence hands
    out and [now] the [created_at] default; the new store and the server. *)
Definition create_server (d : Database) (server_data : ServerCreate)
  (new_id now : Z) : Database * Server :=
  let new_order :=
    if sc_display_order server_data =? 0 then
      match last_server_of (db_servers d) with
      | Some last_server => srv_display_order last_server + 1
      | None => 0
      end
    else sc_display_order server_data in
  let server := {| srv_id := new_id;
                   srv_name := sc_name server_data;
                   srv_url := sc_url server_data;
                   srv_logo_url := sc_logo_url server_data;
                   srv_display_order := new_order;
                   srv_created_at := now |} in
  ({| db_servers := db_servers d ++ [server]; db_records := db_records d |},
   server).

(** The [ServerUpdate] payload after [model_dump(exclude_unset=True)]:
    [None] for a field that was not sent, [Some None] for a field sent as
    [null] (the schema types all three as [str | None]). *)
Record ServerUpdate := mkServerUpdate {
  su_name : option (option string);
  su_url : option (option string);
  su_logo_url : option (option string)
}.

(** Whether the [setattr] loop writes [None] into a [NOT NULL] column
    ([name] or [url]). *)
Definition writes_null (u : ServerUpdate) : bool :=
  match su_name u, su_url u with
  | Some None, _ | _, Some None => true
  | _, _ => false
  end.

(** The [setattr] loop, for a payload that writes no [None] into [name] or
    [url] (the other case raises at the flush). *)
Definition apply_update (s : Server) (u : ServerUpdate) : Server :=
  {| srv_id := srv_id s;
     srv_name := match su_name u with Some (Some v) => v | _ => srv_name s end;
     srv_url := match su_url u with Some (Some v) => v | _ => srv_url s end;
     srv_logo_url :=
       match su_logo_url u with Some v => v | None => srv_logo_url s end;
     srv_display_order := srv_display_order s;
     srv_created_at := srv_created_at s |}.

(** A service call that returns a value or raises. *)
Inductive outcome (A : Type) :=
  | Returns (a : A)
  | RaisesIntegrityError.
Arguments Returns {A} a.
Arguments RaisesIntegrityError {A}.

(** [update_server(db, server_id, server_data)]: the new store and the
    outcome. When [flush()] raises on a [NOT NULL] column the exception
    leaves the route and [get_db] rolls the session back, so the store is
    unchanged. *)
Definition update_server (d : Database) (sid : Z) (server_data : ServerUpdate)
  : Database * outcome (option Server) :=
  match get_server d sid with
  | None => (d, Returns None)
  | Some server =>
      if writes_null server_data then (d, RaisesIntegrityError)
      else
        ({| db_servers :=
              map (fun s => if srv_id s =? sid then apply_update s server_data
                            else s) (db_servers d);
            db_records := db_records d |},
         Returns (Some (apply_update server server_data)))
  end.

(** [delete_server(db, server_id)]: the [uptime_records] relationship
    ([cascade="all, delete-orphan"], and [ON DELETE CASCADE]) removes the
    server's records with it. *)
Definition delete_server (d : Database) (sid : Z) : Database * bool :=
  match get_server d sid with
  | None => (d, false)
  | Some _ =>
      ({| db_servers := filter (fun s => negb (srv_id s =? sid)) (db_servers d);
          db_records := filter (fun r => negb (server_id r =? sid))
                          (db_records d) |}, true)
  end.

(** [server.display_order = ...]. *)
Definition with_display_order (s : Server) (order : Z) : Server :=
  {| srv_id := srv_id s; srv_name := srv_name s; srv_url := srv_url s;
     srv_logo_url := srv_logo_url s; srv_display_order := order;
     srv_created_at := srv_created_at s |}.

Definition set_display_order (sid order : Z) (d : Database) : Database :=
  {| db_servers :=
       map (fun s => if srv_id s =? sid then with_display_order s order else s)
         (db_servers d);
     db_records := db_records d |}.

(** The display order the last item naming [sid] asks for, if any. *)
Definition last_order_for (reorder_data : list (Z * Z)) (sid : Z) : option Z :=
  fold_left (fun acc item => if fst item =? sid then Some (snd item) else acc)
    reorder_data None.

(** [reorder_servers(db, reorder_data)], the items as [(id, display_order)]. *)
Definition reorder_servers (d : Database) (reorder_data : list (Z * Z))
  : Database * bool :=
  (fold_left (fun d item =>
                match get_server d (fst item) with
                | Some _ => set_display_order (fst item) (snd item) d
                | None => d
                end) reorder_data d, true).

(** ** Status and history *)

(** [ORDER BY timestamp DESC LIMIT 1] among a server's records (the first
    of the latest). *)
Definition latest_record (recs : list UptimeRecord) (sid : Z)
  : option UptimeRecord :=
  fold_left (fun acc r =>
               if server_id r =? sid then
                 match acc with
                 | Some a => if timestamp a <? timestamp r then Some r else acc
                 | None => Some r
                 end
               else acc) recs None.

Record ServerWithStatus := mkServerWithStatus {
  ws_id : Z;
  ws_name : string;
  ws_url : string;
  ws_logo_url : option string;
  ws_display_order : Z;
  ws_created_at : Z;
  ws_current_status : option StatusEnum;
  ws_last_ping : option Z;
  ws_response_time_ms : option Q
}.

Definition get_servers_with_status (d : Database) : list ServerWithStatus :=
  map (fun server =>
         let record := latest_record (db_records d) (srv_id server) in
         {| ws_id := srv_id server;
            ws_name := srv_name server;
            ws_url := srv_url server;
            ws_logo_url := srv_logo_url server;
            ws_display_order := srv_display_order server;
            ws_created_at := srv_created_at server;
            ws_current_status := option_map status record;
            ws_last_ping := option_map timestamp record;
            ws_response_time_ms :=
              match record with Some r => response_time_ms r | None => None end
         |}) (get_servers d).

(** The route [GET /servers/{server_id}]: [None] is the 404. *)
Definition route_get_server (d : Database) (sid : Z) : option ServerWithStatus :=
  find (fun s => ws_id s =? sid) (get_servers_with_status d).

(** [ORDER BY timestamp] as an insertion sort: one of the orders the
    database may return, equal timestamps being left in any order by SQL. *)
Fixpoint insert_by_ts (r : UptimeRecord) (l : list UptimeRecord)
  : list UptimeRecord :=
  match l with
  | [] => [r]
  | x :: t => if timestamp r <=? timestamp x then r :: l
              else x :: insert_by_ts r t
  end.

Definition sort_by_ts (l : list UptimeRecord) : list UptimeRecord :=
  fold_right insert_by_ts [] l.

(** [get_server_uptime_history(db, server_id, hours)] at instant [now]. *)
Definition get_server_uptime_history (d : Database) (sid now hours : Z)
  : list UptimeRecord :=
  let since := now - hours * 3600 in
  sort_by_ts (filter (fun r => (server_id r =? sid) && (since <=? timestamp r))
                (db_records d)).

(** The grouping loop of [get_all_servers_uptime_history]:
    [history[record.server_id].append(record)] over a [defaultdict(list)],
    for the rows the query returned. *)
Definition group_history (records : list UptimeRecord)
  : dict (list UptimeRecord) :=
  fold_left (fun history r =>
               dict_set (server_id r)
                 (dict_get_default (server_id r) history [] ++ [r]) history)
            records [].

(** [get_all_servers_uptime_history(db, hours)]. *)
Definition get_all_servers_uptime_history (d : Database) (now hours : Z)
  : dict (list UptimeRecord) :=
  let since := now - hours * 3600 in
  let records := sort_by_ts (filter (fun r => since <=? timestamp r)
                               (db_records d)) in
  group_history records.

(** ** [get_server_stats] *)

Record ServerStats := mkServerStats {
  st_server_id : Z;
  st_server_name : string;
  st_total_checks : Z;
  st_uptime_percentage : Q;
  st_avg_response_time_ms : option Q;
  st_last_24h_uptime : Q
}.

Definition get_server_stats (d : Database) (sid now : Z) : option ServerStats :=
  match get_server d sid with
  | None => None
  | Some server =>
      let records := filter (fun r => server_id r =? sid) (db_records d) in
      match records with
      | [] => Some {| st_server_id := sid; st_server_name := srv_name server;
                      st_total_checks := 0; st_uptime_percentage := 0;
                      st_avg_response_time_ms := None;
                      st_last_24h_uptime := 0 |}
      | _ =>
          let total_checks := Z.of_nat (List.length records) in
          let up_checks := count_status UP records in
          let uptime_percentage :=
            if 0 <? total_checks
            then (inject_Z up_checks / inject_Z total_checks * 100)%Q
            else 0%Q in
          let response_times := filter_some (map response_time_ms records) in
          let avg_response_time :=
            match response_times with
            | [] => None
            | _ => Some (fold_right Qplus 0 response_times
                         / inject_Z (Z.of_nat (List.length response_times)))%Q
            end in
          let since_24h := now - 24 * 3600 in
          let recent_records :=
            filter (fun r => since_24h <=? timestamp r) records in
          let recent_up := count_status UP recent_records in
          let last_24h_uptime :=
            match recent_records with
            | [] => 0%Q
            | _ => (inject_Z recent_up
                    / inject_Z (Z.of_nat (List.length recent_records)) * 100)%Q
            end in
          Some {| st_server_id := sid;
                  st_server_name := srv_name server;
                  st_total_checks := total_checks;
                  st_uptime_percentage := py_round uptime_percentage 2;
                  st_avg_response_time_ms :=
                    match avg_response_time with
                    | Some a => if Qeq_bool a 0 then None else Some (py_round a 2)
                    | None => None
                    end;
                  st_last_24h_uptime := py_round last_24h_uptime 2 |}
      end
  end.

(** ** [cleanup_old_records] and [ping_server_now] *)

(** [cleanup_old_records(db, days)] at instant [now]: the new store and the
    [rowcount] of the [DELETE]. *)
Definition cleanup_old_records (d : Database) (now days : Z) : Database * Z :=
  let cutoff := now - days * 86400 in
  ({| db_servers := db_servers d;
      db_records := filter (fun r => negb (timestamp r <? cutoff)) (db_records d) |},
   Z.of_nat (List.length (filter (fun r => timestamp r <? cutoff) (db_records d)))).

(** [ping_server_now(server_id)]: [start_time], [end_time] and [r] describe the
    probe as for [ping_server]; the record is stamped [now] at insertion. *)
Definition ping_server_now (d : Database) (sid now : Z) (start_time end_time : Q)
  (r : get_result) : Database * option UptimeRecord :=
  match get_server d sid with
  | None => (d, None)
  | Some server =>
      let '(st, response_time) := ping_server start_time end_time r in
      let record := new_record (srv_id server) st response_time now in
      ({| db_servers := db_servers d; db_records := db_records d ++ [record] |},
       Some record)
  end.

(** The order of [get_servers]: nothing later comes strictly before
    something earlier. *)
Definition listed_before (a b : Server) : Prop := server_before b a = false.

(** The order of the history queries. *)
Definition ts_le (a b : UptimeRecord) : Prop := timestamp a <= timestamp b.

(** A server after the reorder items naming it, given the display order the
    last of them asks for. *)
Definition apply_order (o : option Z) (s : Server) : Server :=
  match o with Some v => with_display_order s v | None => s end.

(** ** A small store used to exercise the properties *)

Definition demo_api : Server :=
  mkServer 1 "api" "https://api.example.com" None 0 100.

Definition demo_web : Server :=
  mkServer 2 "web" "https://example.com" None 1 200.

Definition demo_store : Database :=
  {| db_servers := [demo_web; demo_api];
     db_records := [mkUptimeRecord 1 UP (Some 40%Q) 3600;
                    mkUptimeRecord 2 UP (Some 80%Q) 7000;
                    mkUptimeRecord 1 DOWN None 7200] |}.

Definition demo_create : ServerCreate :=
  mkServerCreate "docs" "https://docs.example.com" None 0.

(** * Proofs *)

(** Case analysis on every integer comparison of the goal. *)
Ltac zbool :=
  repeat match goal with
         | |- context [?a <=? ?b] => destruct (Z.leb_spec a b)
         | |- context [?a <? ?b] => destruct (Z.ltb_spec a b)
         end; simpl; auto; try lia.

(** ** Rounding *)

Lemma round_half_even_nonneg (y : Q) : (0 <= y)%Q -> 0 <= round_half_even y.
Proof.
  intros Hy.
  assert (Hf : 0 <= Qfloor y).
  { rewrite <- (Qfloor_Z 0). now apply Qfloor_resp_le. }
  unfold round_half_even.
  destruct (Qltb _ _); [lia|].
  destruct (Qltb _ _); [lia|].
  destruct (Z.even _); lia.
Qed.

Lemma py_round_nonneg (x : Q) (n : nat) : (0 <= x)%Q -> (0 <= py_round x n)%Q.
Proof.
  intros Hx. unfold py_round.
  assert (Hp : 0 < 10 ^ Z.of_nat n) by (apply Z.pow_pos_nonneg; lia).
  assert (Hr : 0 <= round_half_even (x * inject_Z (10 ^ Z.of_nat n))).
  { apply round_half_even_nonneg.
    apply Qmult_le_0_compat; [exact Hx|].
    unfold Qle; simpl; lia. }
  unfold Qle; simpl; lia.
Qed.

(** ** C1: [ping_server] classification *)

(** C1. For every probe, with the two [perf_counter] readings in order: a
    response with status code below 400 gives UP with a response time that
    is present and non-negative; a response with status code 400 or more
    gives DOWN with the response time still present; a timeout, a request
    error or any other exception gives DOWN with no response time. The
    function is total: every probe ends in UP or DOWN. *)
Theorem ping_server_classification (start_time end_time : Q) (r : get_result)
  (Hclock : (start_time <= end_time)%Q) :
  match r with
  | Response code =>
      (code < 400 ->
       fst (ping_server start_time end_time r) = UP /\
       exists t, snd (ping_server start_time end_time r) = Some t /\ (0 <= t)%Q)
      /\ (400 <= code ->
          fst (ping_server start_time end_time r) = DOWN /\
          exists t, snd (ping_server start_time end_time r) = Some t)
  | _ => ping_server start_time end_time r = (DOWN, None)
  end.
Proof.
  destruct r as [code| | |]; simpl; try reflexivity.
  split; intros Hc.
  - assert (Hb : (code <? 400) = true) by (apply Z.ltb_lt; exact Hc).
    rewrite Hb. split; [reflexivity|].
    eexists; split; [reflexivity|].
    apply py_round_nonneg.
    apply Qmult_le_0_compat; [|unfold Qle; simpl; lia].
    apply Qle_minus_iff in Hclock. exact Hclock.
  - assert (Hb : (code <? 400) = false) by (apply Z.ltb_ge; exact Hc).
    rewrite Hb. split; [reflexivity|].
    eexists; reflexivity.
Qed.

Lemma ping_server_classification_witness :
  (0 <= 1)%Q /\
  fst (ping_server 0 1 (Response 200)) = UP /\
  exists t, snd (ping_server 0 1 (Response 200)) = Some t /\ (0 <= t)%Q.
Proof.
  assert (H01 : (0 <= 1)%Q) by (unfold Qle; simpl; lia).
  split; [exact H01|].
  destruct (ping_server_classification 0 1 (Response 200) H01) as [Hup _].
  apply Hup. lia.
Defined.

(** ** Dicts *)

Lemma dict_get_filter_other {V} (k k' : Z) (d : dict V) :
  k <> k' -> dict_get k (filter (fun p => negb (fst p =? k')) d) = dict_get k d.
Proof.
  intros Hne. induction d as [|[k0 v0] d IH]; simpl; [reflexivity|].
  destruct (k0 =? k') eqn:E; simpl.
  - apply Z.eqb_eq in E. subst k0.
    assert (Hk : (k =? k') = false) by (apply Z.eqb_neq; exact Hne).
    rewrite Hk. exact IH.
  - destruct (k =? k0); [reflexivity|exact IH].
Qed.

Lemma dict_get_set {V} (k k' : Z) (v : V) (d : dict V) :
  dict_get k (dict_set k' v d) = if k =? k' then Some v else dict_get k d.
Proof.
  unfold dict_set; simpl.
  destruct (k =? k') eqn:E; [reflexivity|].
  apply dict_get_filter_other. apply Z.eqb_neq. exact E.
Qed.

Lemma dict_get_default_set {V} (k k' : Z) (v : V) (d : dict V) (def : V) :
  dict_get_default k (dict_set k' v d) def
  = if k =? k' then v else dict_get_default k d def.
Proof.
  unfold dict_get_default. rewrite dict_get_set. destruct (k =? k'); reflexivity.
Qed.

(** Setting every key of a list to a value computed from the key. *)
Lemma dict_get_fold_set {V} (f : Z -> V) (l : list Z) (d : dict V) (k : Z) :
  dict_get k (fold_left (fun acc x => dict_set x (f x) acc) l d)
  = if existsb (Z.eqb k) l then Some (f k) else dict_get k d.
Proof.
  revert d. induction l as [|x l IH]; intros d; simpl; [reflexivity|].
  rewrite IH, dict_get_set.
  destruct (k =? x) eqn:E; simpl.
  - apply Z.eqb_eq in E. subst x.
    destruct (existsb _ l); reflexivity.
  - reflexivity.
Qed.

(** ** Group keys *)

Lemma insert_uniq_In {A} (cmp : A -> A -> comparison)
  (Hcmp : forall x y, cmp x y = Eq -> x = y) (x z : A) (l : list A) :
  In z (insert_uniq cmp x l) <-> z = x \/ In z l.
Proof.
  induction l as [|y t IH]; simpl.
  - intuition congruence.
  - destruct (cmp x y) eqn:E; simpl.
    + apply Hcmp in E. subst y. intuition congruence.
    + intuition congruence.
    + rewrite IH. intuition congruence.
Qed.

Lemma group_keys_In {A B} (cmp : A -> A -> comparison)
  (Hcmp : forall x y, cmp x y = Eq -> x = y) (f : B -> A) (l : list B) (z : A) :
  In z (group_keys cmp f l) <-> exists r, In r l /\ f r = z.
Proof.
  unfold group_keys.
  assert (Hgen : forall acc,
    In z (fold_left (fun acc r => insert_uniq cmp (f r) acc) l acc)
    <-> In z acc \/ exists r, In r l /\ f r = z).
  { induction l as [|r l IH]; intros acc; simpl.
    - split; [tauto|]. intros [H|[r [[] _]]]. exact H.
    - rewrite IH, insert_uniq_In by exact Hcmp.
      split.
      + intros [[H|H]|[r' [Hr' Hf]]].
        * right. exists r. auto.
        * left. exact H.
        * right. exists r'. auto.
      + intros [H|[r' [[Hr'|Hr'] Hf]]].
        * left. right. exact H.
        * subst r'. left. left. auto.
        * right. exists r'. auto. }
  rewrite Hgen. simpl. split; [intros [[]|H]; exact H|intros H; right; exact H].
Qed.

Lemma Z_compare_eq_l (x y : Z) : Z.compare x y = Eq -> x = y.
Proof. apply Z.compare_eq. Qed.

Lemma pair_compare_eq (p q : Z * Z) : pair_compare p q = Eq -> p = q.
Proof.
  destruct p as [a b], q as [c d]. unfold pair_compare; simpl.
  destruct (Z.compare a c) eqn:E; try discriminate.
  intros H. apply Z.compare_eq in E. apply Z.compare_eq in H. subst. reflexivity.
Qed.

(** ** Truncation *)

Lemma unit_seconds_pos (res : resolution) : 0 < unit_seconds res.
Proof. destruct res; simpl; lia. Qed.

Lemma date_trunc_mul (res : resolution) (t : Z) :
  date_trunc res t = unit_seconds res * (t / unit_seconds res).
Proof.
  unfold date_trunc. pose proof (unit_seconds_pos res).
  rewrite (Z.mod_eq t (unit_seconds res)) by lia. lia.
Qed.

Lemma bucket_key_trunc (res : resolution) (t : Z) :
  bucket_key res (date_trunc res t)
  = match res with day => t / 86400 | hour => 3600 * (t / 3600) end.
Proof.
  rewrite date_trunc_mul. destruct res; cbn [bucket_key unit_seconds].
  - rewrite Z.mul_comm, Z.div_mul by lia. reflexivity.
  - rewrite Z.mul_comm, Z.mod_mul by lia. lia.
Qed.

(** Truncated instants and their keys determine each other. *)
Lemma bucket_key_trunc_inj (res : resolution) (t t' : Z) :
  (bucket_key res (date_trunc res t) =? bucket_key res (date_trunc res t'))
  = (date_trunc res t =? date_trunc res t').
Proof.
  rewrite !bucket_key_trunc, !date_trunc_mul.
  destruct res; cbn [unit_seconds]; apply eq_true_iff_eq; rewrite !Z.eqb_eq;
    lia.
Qed.

(** ** Grouped data *)

Lemma data_of_aggregate (sid b : Z) (g : list UptimeRecord) :
  data_of_row (aggregate sid b g) = bucket_data g.
Proof. reflexivity. Qed.

Lemma default_data_empty : default_data = bucket_data [].
Proof. reflexivity. Qed.

Lemma grouped_fold (res : resolution) (k : Z) (D : BucketData)
  (rows : list Row) (d : dict BucketData) :
  (forall row, In row rows -> bucket_key res (row_bucket row) = k ->
               data_of_row row = D) ->
  dict_get k (fold_left (fun d row =>
                dict_set (bucket_key res (row_bucket row)) (data_of_row row) d)
              rows d)
  = if existsb (fun row => bucket_key res (row_bucket row) =? k) rows
    then Some D else dict_get k d.
Proof.
  revert d. induction rows as [|row rows IH]; intros d HD; simpl; [reflexivity|].
  rewrite IH by (intros; apply HD; simpl; auto).
  rewrite dict_get_set.
  destruct (bucket_key res (row_bucket row) =? k) eqn:E; simpl.
  - apply Z.eqb_eq in E.
    rewrite (proj2 (Z.eqb_eq k _) (eq_sym E)).
    rewrite (HD row (or_introl eq_refl) E).
    destruct (existsb _ rows); reflexivity.
  - assert (E' : (k =? bucket_key res (row_bucket row)) = false)
      by (rewrite Z.eqb_sym; exact E).
    rewrite E'. reflexivity.
Qed.

Lemma existsb_map' {A B} (f : B -> bool) (g : A -> B) (l : list A) :
  existsb f (map g l) = existsb (fun x => f (g x)) l.
Proof. induction l as [|x l IH]; simpl; [reflexivity|]. now rewrite IH. Qed.

Lemma forallb_forall' {A} (f : A -> bool) (l : list A) :
  forallb f l = false <-> ~ (forall x, In x l -> f x = true).
Proof.
  rewrite <- forallb_forall. destruct (forallb f l); split; congruence.
Qed.

Lemma filter_nil_existsb {A} (f : A -> bool) (l : list A) :
  existsb f l = false -> filter f l = [].
Proof.
  induction l as [|x l IH]; simpl; [reflexivity|].
  destruct (f x); simpl; [discriminate|exact IH].
Qed.

(** The data [_calculate_bars] looks up for key [k] is the aggregate of the
    fetched records that fall into [k]. *)
Lemma grouped_single_get (res : resolution) (sid : Z)
  (fetched : list UptimeRecord) (k : Z) :
  dict_get_default k (grouped_of_rows res (rows_single res sid fetched))
    default_data
  = bucket_data (bucket_records res fetched k).
Proof.
  unfold grouped_of_rows, dict_get_default.
  rewrite (grouped_fold res k (bucket_data (bucket_records res fetched k))).
  - unfold rows_single. rewrite existsb_map'.
    destruct (existsb _ (group_keys _ _ _)) eqn:E; [reflexivity|].
    simpl. rewrite default_data_empty. f_equal. symmetry.
    apply filter_nil_existsb.
    apply not_true_iff_false. intros Hex.
    apply existsb_exists in Hex. destruct Hex as [r [Hr Hk]].
    apply not_true_iff_false in E. apply E.
    apply existsb_exists. exists (date_trunc res (timestamp r)).
    split; [|exact Hk].
    apply (group_keys_In Z.compare Z_compare_eq_l). exists r. auto.
  - unfold rows_single. intros row Hrow Hk.
    apply in_map_iff in Hrow. destruct Hrow as [b [Hb Hin]]. subst row.
    simpl in Hk. rewrite data_of_aggregate.
    apply (group_keys_In Z.compare Z_compare_eq_l) in Hin.
    destruct Hin as [r0 [_ Hr0]]. subst b.
    unfold bucket_records. f_equal. apply filter_ext. intros r.
    unfold rec_key. rewrite <- Hk. symmetry. apply bucket_key_trunc_inj.
Qed.

(** ** The generation loops *)

Lemma bars_loop_gen (res : resolution) (gd : dict BucketData) (n : nat)
  (current : Z) :
  bars_loop res gd n current
  = gen_bars res (fun k => dict_get_default k gd default_data) n current.
Proof.
  revert current. induction n as [|n IH]; intros current; simpl; [reflexivity|].
  rewrite IH. reflexivity.
Qed.

Lemma bulk_bars_loop_gen (res : resolution) (gd : dict BucketData) (n : nat)
  (current : Z) :
  bulk_bars_loop res gd n current
  = gen_bars res (fun k => dict_get_default k gd default_data) n current.
Proof.
  revert current. induction n as [|n IH]; intros current; simpl; [reflexivity|].
  rewrite IH. reflexivity.
Qed.

Lemma gen_bars_ext (res : resolution) (f g : Z -> BucketData) (n : nat)
  (current : Z) :
  (forall k, f k = g k) -> gen_bars res f n current = gen_bars res g n current.
Proof.
  intros Hfg. revert current.
  induction n as [|n IH]; intros current; simpl; [reflexivity|].
  rewrite Hfg, IH. reflexivity.
Qed.

(** [_calculate_bars] as the generated bars over the aggregates of the
    fetched records. *)
Lemma calculate_bars_gen (db : list UptimeRecord) (sid now count : Z)
  (res : resolution) :
  _calculate_bars db sid now count res
  = gen_bars res
      (fun k => bucket_data
                  (bucket_records res
                     (fetch_single db sid (window_since res now count)) k))
      (Z.to_nat count) (first_key res now count).
Proof.
  unfold _calculate_bars. rewrite bars_loop_gen.
  apply gen_bars_ext. intros k. apply grouped_single_get.
Qed.

Lemma gen_bars_length (res : resolution) (f : Z -> BucketData) (n : nat)
  (current : Z) : List.length (gen_bars res f n current) = n.
Proof.
  revert current. induction n as [|n IH]; intros current; simpl; [reflexivity|].
  now rewrite IH.
Qed.

Lemma iter_key_eq (res : resolution) (i : nat) (current : Z) :
  iter_key res i current
  = current + Z.of_nat i * match res with day => 1 | hour => 3600 end.
Proof.
  revert current. induction i as [|i IH]; intros current; simpl; [lia|].
  rewrite IH. destruct res; simpl; lia.
Qed.

Lemma gen_bars_nth (res : resolution) (f : Z -> BucketData) (n i : nat)
  (current : Z) (b : Bar) :
  nth_error (gen_bars res f n current) i = Some b ->
  (i < n)%nat /\ b = make_bar res (iter_key res i current)
                                  (f (iter_key res i current)).
Proof.
  revert i current. induction n as [|n IH]; intros i current H; simpl in H.
  - destruct i; discriminate.
  - destruct i as [|i]; simpl in H.
    + inversion H. split; [lia|reflexivity].
    + apply IH in H. destruct H as [Hi Hb]. split; [lia|exact Hb].
Qed.

(** ** The bulk grouping *)

Lemma filter_filter' {A} (f g : A -> bool) (l : list A) :
  filter f (filter g l) = filter (fun x => g x && f x) l.
Proof.
  induction l as [|x l IH]; simpl; [reflexivity|].
  destruct (g x); simpl; [destruct (f x); simpl; rewrite IH|]; auto.
Qed.

Lemma server_groups_fold (res : resolution) (s k : Z) (D : BucketData)
  (rows : list Row) (sg : dict (dict BucketData)) :
  (forall row, In row rows -> row_server_id row = s ->
               bucket_key res (row_bucket row) = k -> data_of_row row = D) ->
  dict_get k (dict_get_default s
    (fold_left (fun sg row =>
       let inner := dict_get_default (row_server_id row) sg [] in
       dict_set (row_server_id row)
         (dict_set (bucket_key res (row_bucket row)) (data_of_row row) inner) sg)
      rows sg) [])
  = if existsb (fun row => (row_server_id row =? s)
                           && (bucket_key res (row_bucket row) =? k)) rows
    then Some D else dict_get k (dict_get_default s sg []).
Proof.
  revert sg. induction rows as [|row rows IH]; intros sg HD; simpl; [reflexivity|].
  rewrite IH by (intros; apply HD; simpl; auto).
  cbv beta zeta. rewrite dict_get_default_set.
  destruct (row_server_id row =? s) eqn:Es; simpl.
  - apply Z.eqb_eq in Es. subst s. rewrite Z.eqb_refl.
    rewrite dict_get_set.
    destruct (bucket_key res (row_bucket row) =? k) eqn:Ek; simpl.
    + apply Z.eqb_eq in Ek. subst k. rewrite Z.eqb_refl.
      rewrite (HD row (or_introl eq_refl) eq_refl eq_refl).
      destruct (existsb _ rows); reflexivity.
    + rewrite Z.eqb_sym, Ek. reflexivity.
  - rewrite Z.eqb_sym, Es. reflexivity.
Qed.

Lemma grouped_bulk_get (res : resolution) (fetched : list UptimeRecord)
  (s k : Z) :
  dict_get_default k
    (dict_get_default s (server_groups_of_rows res (rows_bulk res fetched)) [])
    default_data
  = bucket_data (bucket_records res (filter (fun r => server_id r =? s) fetched) k).
Proof.
  unfold server_groups_of_rows. unfold dict_get_default at 1.
  rewrite (server_groups_fold res s k
    (bucket_data (bucket_records res (filter (fun r => server_id r =? s) fetched) k))).
  - unfold rows_bulk. rewrite existsb_map'.
    destruct (existsb _ (group_keys _ _ _)) eqn:E; [reflexivity|].
    simpl. rewrite default_data_empty. f_equal. symmetry.
    apply filter_nil_existsb.
    apply not_true_iff_false. intros Hex.
    apply existsb_exists in Hex. destruct Hex as [r [Hr Hk]].
    apply filter_In in Hr. destruct Hr as [Hr Hs].
    apply not_true_iff_false in E. apply E.
    apply existsb_exists. exists (server_id r, date_trunc res (timestamp r)).
    split.
    + apply (group_keys_In pair_compare pair_compare_eq). exists r. auto.
    + simpl. rewrite Hs. exact Hk.
  - unfold rows_bulk. intros row Hrow Hs Hk.
    apply in_map_iff in Hrow. destruct Hrow as [[s' b] [Hb Hin]]. subst row.
    simpl in Hs, Hk. subst s'. rewrite data_of_aggregate.
    apply (group_keys_In pair_compare pair_compare_eq) in Hin.
    destruct Hin as [r0 [_ Hr0]]. inversion Hr0 as [[Hs0 Hb0]].
    unfold bucket_records. rewrite filter_filter'. f_equal.
    apply filter_ext. intros r. f_equal.
    unfold rec_key. rewrite <- Hk, <- Hb0. symmetry. apply bucket_key_trunc_inj.
Qed.

Lemma fetch_bulk_single (db : list UptimeRecord) (server_ids : list Z)
  (sid since : Z) :
  In sid server_ids ->
  filter (fun r => server_id r =? sid) (fetch_bulk db server_ids since)
  = fetch_single db sid since.
Proof.
  intros Hin. unfold fetch_bulk, fetch_single. rewrite filter_filter'.
  apply filter_ext. intros r.
  destruct (server_id r =? sid) eqn:E; simpl.
  - apply Z.eqb_eq in E. subst sid.
    assert (Hex : existsb (Z.eqb (server_id r)) server_ids = true).
    { apply existsb_exists. exists (server_id r). split; [exact Hin|].
      apply Z.eqb_refl. }
    rewrite Hex. simpl. destruct (_ <=? _); reflexivity.
  - destruct (existsb _ _ && _); reflexivity.
Qed.

(** ** C5: bulk and single-server bars agree *)

Lemma bulk_get_single (db : list UptimeRecord) (server_ids : list Z)
  (now count : Z) (res : resolution) (sid : Z) :
  In sid server_ids ->
  dict_get sid (_calculate_bars_bulk db server_ids now count res)
  = Some (_calculate_bars db sid now count res).
Proof.
  intros Hin.
  destruct server_ids as [|x rest] eqn:Eids; [destruct Hin|].
  rewrite <- Eids in *. unfold _calculate_bars_bulk. rewrite Eids. rewrite <- Eids.
  cbv zeta.
  rewrite (dict_get_fold_set (fun sid =>
    bulk_bars_loop res
      (dict_get_default sid
         (server_groups_of_rows res
            (rows_bulk res (fetch_bulk db server_ids (window_since res now count))))
         []) (Z.to_nat count) (first_key res now count))).
  assert (Hex : existsb (Z.eqb sid) server_ids = true).
  { apply existsb_exists. exists sid. split; [exact Hin|apply Z.eqb_refl]. }
  rewrite Hex. f_equal.
  rewrite bulk_bars_loop_gen, calculate_bars_gen.
  apply gen_bars_ext. intros k.
  rewrite grouped_bulk_get, fetch_bulk_single by exact Hin. reflexivity.
Qed.

(** C5. For every list of server ids, instant [now], bucket count and
    resolution, and every id in the list, the bars [_calculate_bars_bulk]
    returns for that id are exactly the bars [_calculate_bars] returns for
    it alone, with the same database and the same [now]. *)
Theorem calculate_bars_bulk_matches_single (db : list UptimeRecord)
  (server_ids : list Z) (now count : Z) (res : resolution) (sid : Z)
  (Hin : In sid server_ids) :
  dict_get sid (_calculate_bars_bulk db server_ids now count res)
  = Some (_calculate_bars db sid now count res).
Proof. apply bulk_get_single. exact Hin. Qed.

Lemma calculate_bars_bulk_matches_single_witness :
  In 2 [1; 2] /\
  dict_get 2 (_calculate_bars_bulk
                [mkUptimeRecord 1 UP (Some 50%Q) 7200;
                 mkUptimeRecord 2 DOWN None 7300] [1; 2] 7400 2 hour)
  = Some (_calculate_bars
            [mkUptimeRecord 1 UP (Some 50%Q) 7200;
             mkUptimeRecord 2 DOWN None 7300] 2 7400 2 hour).
Proof.
  assert (H : In 2 [1; 2]) by (simpl; auto).
  split; [exact H|].
  apply (calculate_bars_bulk_matches_single _ [1; 2] 7400 2 hour 2 H).
Defined.

(** ** The bars of [_calculate_bars] one by one *)

Lemma calculate_bars_nth (db : list UptimeRecord) (sid now count : Z)
  (res : resolution) (i : nat) (b : Bar) :
  nth_error (_calculate_bars db sid now count res) i = Some b ->
  (i < Z.to_nat count)%nat /\
  b = make_bar res (iter_key res i (first_key res now count))
        (bucket_data (bucket_records res
           (fetch_single db sid (window_since res now count))
           (iter_key res i (first_key res now count)))).
Proof.
  rewrite calculate_bars_gen. apply gen_bars_nth.
Qed.

Lemma count_status_le (s : StatusEnum) (g : list UptimeRecord) :
  count_status s g <= Z.of_nat (List.length g).
Proof.
  unfold count_status. apply Nat2Z.inj_le.
  induction g as [|r g IH]; simpl; [lia|].
  destruct (StatusEnum_eqb _ _); simpl; lia.
Qed.

Lemma pct_le_100 (u t : Z) :
  0 < t -> u <= t -> (inject_Z u / inject_Z t * 100 <= 100)%Q.
Proof.
  intros Ht Hu.
  assert (H1 : (inject_Z u / inject_Z t <= 1)%Q).
  { apply Qle_shift_div_r.
    - unfold Qlt; simpl; lia.
    - rewrite Qmult_1_l. unfold Qle; simpl; lia. }
  apply Qle_trans with (1 * 100)%Q.
  - apply Qmult_le_compat_r; [exact H1|unfold Qle; simpl; lia].
  - unfold Qle; simpl; lia.
Qed.

(** ** C2: the number of bars *)

(** C2. For every server, instant [now], bucket count [count >= 1] and
    resolution, [_calculate_bars] returns exactly [count] bars whatever the
    records; and when the server has no record in the window, every bar has
    status unknown, zero checks and uptime percentage 0. *)
Theorem calculate_bars_length_and_empty (db : list UptimeRecord)
  (sid now count : Z) (res : resolution) (Hcount : 1 <= count) :
  Z.of_nat (List.length (_calculate_bars db sid now count res)) = count /\
  ((forall r, In r db -> server_id r = sid ->
              timestamp r < window_since res now count) ->
   forall b, In b (_calculate_bars db sid now count res) ->
     bar_status_of b = unknown /\ bar_checks b = 0 /\
     (bar_uptime_percentage b == 0)%Q).
Proof.
  split.
  - rewrite calculate_bars_gen, gen_bars_length. lia.
  - intros Hempty b Hb.
    apply In_nth_error in Hb. destruct Hb as [i Hi].
    apply calculate_bars_nth in Hi. destruct Hi as [_ ->].
    assert (Hf : fetch_single db sid (window_since res now count) = []).
    { unfold fetch_single. apply filter_nil_existsb.
      apply not_true_iff_false. intros Hex.
      apply existsb_exists in Hex. destruct Hex as [r [Hr Hc]].
      apply andb_true_iff in Hc. destruct Hc as [Hs Ht].
      apply Z.eqb_eq in Hs. apply Z.leb_le in Ht.
      specialize (Hempty r Hr Hs). lia. }
    rewrite Hf. unfold bucket_records. simpl.
    split; [reflexivity|]. split; [reflexivity|].
    unfold Qeq; simpl. reflexivity.
Qed.

Lemma calculate_bars_length_and_empty_witness :
  1 <= 24 /\ Z.of_nat (List.length (_calculate_bars [] 1 90000 24 hour)) = 24.
Proof.
  assert (H : 1 <= 24) by lia.
  split; [exact H|].
  exact (proj1 (calculate_bars_length_and_empty [] 1 90000 24 hour H)).
Defined.

(** ** C3: the status tier of a bar *)

(** C3. For every bar [_calculate_bars] returns, its status is the tier the
    specification's rules give, first match wins, for the records of its
    bucket: unknown without checks, down below 50 percent up, partial from
    50 up to below 100 percent, degraded at 100 percent with an average
    response time of at least 1000 ms, up otherwise. *)
Theorem calculate_bars_status_tier (db : list UptimeRecord) (sid now count : Z)
  (res : resolution) (i : nat) (b : Bar)
  (Hb : nth_error (_calculate_bars db sid now count res) i = Some b) :
  bar_status_of b
  = spec_tier (bucket_records res
                 (fetch_single db sid (window_since res now count))
                 (iter_key res i (first_key res now count))).
Proof.
  apply calculate_bars_nth in Hb. destruct Hb as [_ ->].
  set (g := bucket_records res _ _).
  unfold make_bar, spec_tier, bucket_data. cbn [d_total d_up d_avg_latency bar_status_of].
  destruct (Z.of_nat (List.length g) =? 0) eqn:E0; [reflexivity|].
  assert (Hpos : 0 < Z.of_nat (List.length g)) by (apply Z.eqb_neq in E0; lia).
  assert (Hlt : (0 <? Z.of_nat (List.length g)) = true) by (apply Z.ltb_lt; exact Hpos).
  rewrite Hlt.
  set (pct := (inject_Z (count_status UP g) / inject_Z (Z.of_nat (List.length g)) * 100)%Q).
  destruct (Qltb pct 50) eqn:E1; [reflexivity|].
  assert (H50 : Qle_bool 50 pct = true).
  { unfold Qltb in E1. destruct (Qle_bool 50 pct); [reflexivity|discriminate]. }
  rewrite H50. simpl.
  destruct (Qltb pct 100) eqn:E2; [reflexivity|].
  assert (H100 : Qeq_bool pct 100 = true).
  { apply Qeq_bool_iff. apply Qle_antisym.
    - apply pct_le_100; [exact Hpos|apply count_status_le].
    - unfold Qltb in E2. apply Qle_bool_iff.
      destruct (Qle_bool 100 pct); [reflexivity|discriminate]. }
  rewrite H100. simpl.
  destruct (sql_avg (map response_time_ms g)) as [a|]; simpl; reflexivity.
Qed.

Lemma calculate_bars_status_tier_witness :
  nth_error (_calculate_bars [mkUptimeRecord 1 UP (Some 1500%Q) 7300] 1 7400 1 hour) 0
  = Some (mkBar 7200 degraded (py_round 100 2) 1 (Some (py_round 1500 2))) /\
  bar_status_of (mkBar 7200 degraded (py_round 100 2) 1 (Some (py_round 1500 2)))
  = spec_tier (bucket_records hour
                 (fetch_single [mkUptimeRecord 1 UP (Some 1500%Q) 7300] 1
                    (window_since hour 7400 1))
                 (iter_key hour 0 (first_key hour 7400 1))).
Proof.
  assert (H : nth_error (_calculate_bars [mkUptimeRecord 1 UP (Some 1500%Q) 7300]
                           1 7400 1 hour) 0
              = Some (mkBar 7200 degraded (py_round 100 2) 1 (Some (py_round 1500 2))))
    by (vm_compute; reflexivity).
  split; [exact H|].
  exact (calculate_bars_status_tier _ 1 7400 1 hour 0%nat _ H).
Defined.

(** ** Bucket indices *)

Lemma div_mod_facts (u t : Z) :
  0 < u -> t = u * (t / u) + t mod u /\ 0 <= t mod u < u.
Proof.
  intros Hu. split; [apply Z.div_mod; lia|apply Z.mod_pos_bound; exact Hu].
Qed.

Lemma first_key_index (res : resolution) (now count : Z) :
  first_key res now count
  = key_of_index res (now / unit_seconds res - count + 1).
Proof.
  destruct res; cbn [first_key key_of_index unit_seconds].
  - replace (now - (count - 1) * 86400) with (now + (- (count - 1)) * 86400)
      by lia.
    rewrite Z.div_add by lia. lia.
  - set (t := now - (count - 1) * 3600).
    rewrite (Z.mod_eq t 3600) by lia.
    replace t with (now + (- (count - 1)) * 3600) by (unfold t; lia).
    rewrite Z.div_add by lia. lia.
Qed.

Lemma next_key_index (res : resolution) (c : Z) :
  next_key res (key_of_index res c) = key_of_index res (c + 1).
Proof. destruct res; cbn [next_key key_of_index]; lia. Qed.

Lemma iter_key_index (res : resolution) (i : nat) (c : Z) :
  iter_key res i (key_of_index res c) = key_of_index res (c + Z.of_nat i).
Proof.
  revert c. induction i as [|i IH]; intros c; simpl.
  - f_equal. lia.
  - rewrite next_key_index, IH. f_equal. lia.
Qed.

Lemma bar_date_index (res : resolution) (c : Z) :
  bar_date_of res (key_of_index res c) = unit_seconds res * c.
Proof. destruct res; cbn [bar_date_of key_of_index unit_seconds]; lia. Qed.

Lemma rec_key_index (res : resolution) (r : UptimeRecord) :
  rec_key res r = key_of_index res (timestamp r / unit_seconds res).
Proof. unfold rec_key. rewrite bucket_key_trunc. destruct res; reflexivity. Qed.

Lemma key_of_index_eqb (res : resolution) (a b : Z) :
  (key_of_index res a =? key_of_index res b) = (a =? b).
Proof.
  apply eq_true_iff_eq. rewrite !Z.eqb_eq.
  destruct res; cbn [key_of_index]; lia.
Qed.

Lemma gen_bars_dates_occ (res : resolution) (f : Z -> BucketData) (n : nat)
  (c m : Z) :
  count_occ Z.eq_dec (map bar_date (gen_bars res f n (key_of_index res c)))
    (unit_seconds res * m)
  = if (c <=? m) && (m <? c + Z.of_nat n) then 1%nat else 0%nat.
Proof.
  pose proof (unit_seconds_pos res) as Hu.
  revert c. induction n as [|n IH]; intros c; cbn [gen_bars map count_occ].
  - zbool.
  - rewrite next_key_index, IH. unfold make_bar. cbn [bar_date].
    rewrite bar_date_index, Nat2Z.inj_succ.
    destruct (Z.eq_dec (unit_seconds res * c) (unit_seconds res * m)) as [E|E].
    + assert (c = m) by nia. subst m. zbool.
    + assert (c <> m) by (intros ->; apply E; reflexivity). zbool.
Qed.

(** ** C7: the average response time of a bar *)

(** C7 as stated fails: one DOWN record without a response time in the
    last hour gives a bar whose average response time is the number 0. *)
Lemma avg_response_time_absent_counterexample :
  ~ (forall db sid now count res i b,
       nth_error (_calculate_bars db sid now count res) i = Some b ->
       bar_avg_response_time_ms b <> None ->
       0 < bar_checks b /\
       exists r, In r (bucket_records res
                         (fetch_single db sid (window_since res now count))
                         (iter_key res i (first_key res now count)))
                 /\ response_time_ms r <> None).
Proof.
  intros H.
  destruct (H [mkUptimeRecord 1 DOWN None 7300] 1 7400 1 hour 0%nat
              (mkBar 7200 down (py_round 0 2) 1 (Some (py_round 0 2))))
    as [_ [r [Hr Hrt]]].
  - vm_compute. reflexivity.
  - discriminate.
  - vm_compute in Hr. destruct Hr as [<-|[]]. apply Hrt. reflexivity.
Qed.

(** C7 (amended). For every bar [_calculate_bars] returns, the average
    response time is present exactly when the bar has checks; it is then the
    average of the present response times of its bucket rounded to two
    decimals, and 0 when none of its records has a response time. *)
Theorem calculate_bars_avg_response_time (db : list UptimeRecord)
  (sid now count : Z) (res : resolution) (i : nat) (b : Bar)
  (Hb : nth_error (_calculate_bars db sid now count res) i = Some b) :
  let g := bucket_records res (fetch_single db sid (window_since res now count))
             (iter_key res i (first_key res now count)) in
  bar_checks b = Z.of_nat (List.length g) /\
  bar_avg_response_time_ms b
  = if 0 <? bar_checks b
    then Some (py_round (match sql_avg (map response_time_ms g) with
                         | Some a => a
                         | None => 0%Q
                         end) 2)
    else None.
Proof.
  apply calculate_bars_nth in Hb. destruct Hb as [_ ->].
  intros g. unfold make_bar, bucket_data. cbn. split; reflexivity.
Qed.

Lemma calculate_bars_avg_response_time_witness :
  nth_error (_calculate_bars [mkUptimeRecord 1 DOWN None 7300] 1 7400 1 hour) 0
  = Some (mkBar 7200 down (py_round 0 2) 1 (Some (py_round 0 2))) /\
  bar_checks (mkBar 7200 down (py_round 0 2) 1 (Some (py_round 0 2))) = 1.
Proof.
  assert (H : nth_error (_calculate_bars [mkUptimeRecord 1 DOWN None 7300]
                           1 7400 1 hour) 0
              = Some (mkBar 7200 down (py_round 0 2) 1 (Some (py_round 0 2))))
    by (vm_compute; reflexivity).
  split; [exact H|].
  destruct (calculate_bars_avg_response_time _ 1 7400 1 hour 0%nat _ H) as [Hc _].
  rewrite Hc. vm_compute. reflexivity.
Defined.

(** ** C8: the window and its buckets *)

(** C8 as stated fails: the query reads every record from
    [now - count * unit] on, but the first bar starts at the truncation of
    [now - (count - 1) * unit]; a record read in between falls in no bar. *)
Lemma window_records_counted_counterexample :
  ~ (forall db sid now count res r,
       In r (fetch_single db sid (window_since res now count)) ->
       count_occ Z.eq_dec (map bar_date (_calculate_bars db sid now count res))
         (date_trunc res (timestamp r)) = 1%nat).
Proof.
  intros H.
  specialize (H [mkUptimeRecord 1 UP (Some 50%Q) 3591060] 1 3601800 3 hour
                (mkUptimeRecord 1 UP (Some 50%Q) 3591060)).
  vm_compute in H. discriminate (H (or_introl eq_refl)).
Qed.

(** C8 (amended). For every call with [count >= 0]: the bar dates are
    [count] unit-aligned, consecutive instants ending at the truncation of
    [now], which is at most [now] and less than one unit before it; each bar
    counts exactly the fetched records whose truncated timestamp is its date;
    and an instant [t] falls in exactly one bar when
    [trunc(now) - (count - 1) * unit <= t < trunc(now) + unit], in none
    otherwise (fetched records of the partial bucket before that are read
    but counted in no bar). *)
Theorem calculate_bars_window (db : list UptimeRecord) (sid now count : Z)
  (res : resolution) (Hcount : 0 <= count) :
  let bars := _calculate_bars db sid now count res in
  let fetched := fetch_single db sid (window_since res now count) in
  let last := date_trunc res now in
  let u := unit_seconds res in
  (last <= now < last + u) /\
  (forall i b, nth_error bars i = Some b ->
     bar_date b = last - (count - 1 - Z.of_nat i) * u /\
     bar_date b mod u = 0 /\
     bar_checks b
     = Z.of_nat (List.length
         (filter (fun r => date_trunc res (timestamp r) =? bar_date b) fetched))) /\
  (forall t, count_occ Z.eq_dec (map bar_date bars) (date_trunc res t)
             = if (last - (count - 1) * u <=? t) && (t <? last + u)
               then 1%nat else 0%nat).
Proof.
  intros bars fetched last u.
  pose proof (unit_seconds_pos res) as Hu.
  pose proof (div_mod_facts u now Hu) as [Hn Hnm].
  assert (Hlast : last = u * (now / u)) by apply date_trunc_mul.
  split; [|split].
  - lia.
  - intros i b Hb. apply calculate_bars_nth in Hb. destruct Hb as [Hi ->].
    rewrite first_key_index, iter_key_index.
    unfold make_bar, bucket_data. cbn [bar_date bar_checks d_total].
    rewrite bar_date_index. fold u. split; [|split].
    + lia.
    + rewrite Z.mul_comm. apply Z.mod_mul. lia.
    + f_equal. f_equal. unfold bucket_records. apply filter_ext. intros r.
      rewrite rec_key_index, key_of_index_eqb, date_trunc_mul. fold u.
      apply eq_true_iff_eq. rewrite !Z.eqb_eq. nia.
  - intros t. unfold bars. rewrite calculate_bars_gen, first_key_index.
    rewrite date_trunc_mul. fold u.
    rewrite gen_bars_dates_occ.
    pose proof (div_mod_facts u t Hu) as [Ht Htm].
    rewrite Z2Nat.id by exact Hcount.
    repeat match goal with
           | |- context [?a <=? ?b] => destruct (Z.leb_spec a b)
           | |- context [?a <? ?b] => destruct (Z.ltb_spec a b)
           end; simpl; try reflexivity; exfalso; nia.
Qed.

Lemma calculate_bars_window_witness :
  0 <= 3 /\
  count_occ Z.eq_dec
    (map bar_date (_calculate_bars [mkUptimeRecord 1 UP (Some 50%Q) 3591060]
                     1 3601800 3 hour))
    (date_trunc hour 3591060) = 0%nat.
Proof.
  assert (H : 0 <= 3) by lia.
  split; [exact H|].
  destruct (calculate_bars_window [mkUptimeRecord 1 UP (Some 50%Q) 3591060]
              1 3601800 3 hour H) as [_ [_ Hocc]].
  rewrite Hocc. vm_compute. reflexivity.
Defined.

(** ** C4: the overall uptime percentage *)

(** C4 as stated fails: the reported percentage is rounded to three
    decimals. Bars of 33.33 percent over 3 checks and 0 percent over 4
    checks average to 99.99/7 = 14.2842..., reported as 14.284. *)
Lemma overall_uptime_weighted_counterexample :
  ~ (forall d now days,
       Forall (fun e => (sw_uptime_percentage e
                         == weighted_uptime_of (sw_uptime_bars e))%Q)
         (get_servers_with_uptime_bars d now days)).
Proof.
  intros H.
  specialize (H {| db_servers := [mkServer 1 "api" "https://api.example" None 0 0];
                   db_records := [mkUptimeRecord 1 UP (Some 50%Q) 3596500;
                                  mkUptimeRecord 1 DOWN None 3596600;
                                  mkUptimeRecord 1 DOWN None 3596700;
                                  mkUptimeRecord 1 DOWN None 3592900;
                                  mkUptimeRecord 1 DOWN None 3593000;
                                  mkUptimeRecord 1 DOWN None 3593100;
                                  mkUptimeRecord 1 DOWN None 3593200] |}
                3601800 30).
  set (L := get_servers_with_uptime_bars _ _ _) in H.
  assert (Hb : forallb (fun e => Qeq_bool (sw_uptime_percentage e)
                                   (weighted_uptime_of (sw_uptime_bars e))) L
               = false) by (vm_compute; reflexivity).
  rewrite forallb_forall' in Hb.
  apply Hb. rewrite Forall_forall in H. intros e He.
  apply Qeq_bool_iff. apply H. exact He.
Qed.

(** C4 (amended). For every server [get_servers_with_uptime_bars] returns,
    the reported uptime percentage is the check-count-weighted average
    sum(percentage x checks) / sum(checks) of its bars rounded to three
    decimals, and 0 when its bars hold no check. *)
Theorem overall_uptime_weighted (d : Database) (now days : Z) :
  Forall (fun e =>
            sw_uptime_percentage e = py_round (weighted_uptime_of (sw_uptime_bars e)) 3
            /\ (fold_right Z.add 0 (map bar_checks (sw_uptime_bars e)) = 0 ->
                (sw_uptime_percentage e == 0)%Q))
    (get_servers_with_uptime_bars d now days).
Proof.
  unfold get_servers_with_uptime_bars.
  destruct (get_servers d) as [|s0 rest]; [constructor|].
  apply Forall_map. apply Forall_forall. intros s _. cbn [sw_uptime_percentage sw_uptime_bars].
  split; [reflexivity|].
  intros H0. unfold weighted_uptime_of. rewrite H0. simpl.
  unfold Qeq; simpl. reflexivity.
Qed.

(** ** C10: the window size argument is ignored *)

(** C10. [get_uptime_bars] and [get_servers_with_uptime_bars] give the same
    result for any two values of their day-count argument: always 24 hourly
    bars computed by [_calculate_bars], for every server. *)
Theorem uptime_bars_ignore_days (d : Database) (server : Server) (now : Z)
  (days1 days2 : Z) :
  get_uptime_bars d server now days1 = get_uptime_bars d server now days2 /\
  get_uptime_bars d server now days1
  = _calculate_bars (db_records d) (srv_id server) now 24 hour /\
  get_servers_with_uptime_bars d now days1
  = get_servers_with_uptime_bars d now days2 /\
  map sw_uptime_bars (get_servers_with_uptime_bars d now days1)
  = map (fun s => _calculate_bars (db_records d) (srv_id s) now 24 hour)
        (get_servers d).
Proof.
  split; [reflexivity|]. split; [reflexivity|]. split; [reflexivity|].
  unfold get_servers_with_uptime_bars.
  destruct (get_servers d) as [|s0 rest] eqn:Es; [reflexivity|].
  rewrite <- Es, map_map. apply map_ext_in. intros s Hs.
  cbn [sw_uptime_bars]. unfold dict_get_default.
  rewrite bulk_get_single; [reflexivity|].
  apply in_map. exact Hs.
Qed.

(** ** C6: one record per server in a batch *)

Lemma ping_and_record_app (acc : list UptimeRecord) (s : Server) (now : Z)
  (t : TargetRun) :
  fst (ping_and_record acc s now t) = acc ++ fst (ping_and_record [] s now t).
Proof.
  unfold ping_and_record.
  destruct (run_fault t), (fallback_add_raises t); simpl;
    rewrite ?app_nil_r, <- ?app_assoc; reflexivity.
Qed.

Lemma batch_session (now : Z) (run : Server -> TargetRun)
  (servers : list Server) (acc : list UptimeRecord) :
  fold_left (fun s server => fst (ping_and_record s server now (run server)))
    servers acc
  = acc ++ flat_map (fun s => fst (ping_and_record [] s now (run s))) servers.
Proof.
  revert acc. induction servers as [|s servers IH]; intros acc; simpl.
  - rewrite app_nil_r. reflexivity.
  - rewrite IH, ping_and_record_app, app_assoc. reflexivity.
Qed.

Lemma handler_safe (now : Z) (run : Server -> TargetRun) (s : Server) :
  run_fault (run s) <> RaisesAfterAdd -> fallback_add_raises (run s) = false ->
  fst (ping_and_record [] s now (run s)) = [expected_record now run s].
Proof.
  intros Hf Hfb. unfold ping_and_record, expected_record. rewrite Hfb.
  destruct (run_fault (run s)); [reflexivity|reflexivity|contradiction].
Qed.

Lemma batch_all_safe (now : Z) (run : Server -> TargetRun) (l : list Server) :
  (forall s, In s l ->
     run_fault (run s) <> RaisesAfterAdd /\ fallback_add_raises (run s) = false) ->
  flat_map (fun s => fst (ping_and_record [] s now (run s))) l
  = map (expected_record now run) l.
Proof.
  induction l as [|s l IH]; intros Hsafe; simpl; [reflexivity|].
  destruct (Hsafe s (or_introl eq_refl)) as [Hf Hfb].
  rewrite (handler_safe now run s Hf Hfb), IH by (intros; apply Hsafe; simpl; auto).
  reflexivity.
Qed.

Lemma handler_server_id (now : Z) (t : TargetRun) (s : Server) (r : UptimeRecord) :
  In r (fst (ping_and_record [] s now t)) -> server_id r = srv_id s.
Proof.
  unfold ping_and_record.
  destruct (run_fault t), (fallback_add_raises t); simpl;
    intros H; repeat destruct H as [<-|H]; try reflexivity; contradiction.
Qed.

Lemma NoDup_map_eq {A B} (f : A -> B) (l : list A) (x y : A) :
  NoDup (map f l) -> In x l -> In y l -> f x = f y -> x = y.
Proof.
  induction l as [|a l IH]; simpl; [tauto|].
  intros Hn Hx Hy Hf. inversion Hn as [|? ? Hnot Hn']; subst.
  destruct Hx as [<-|Hx], Hy as [<-|Hy]; auto.
  - exfalso. apply Hnot. rewrite Hf. now apply in_map.
  - exfalso. apply Hnot. rewrite <- Hf. now apply in_map.
Qed.

(** C6 as stated fails: when a server's record cannot be added and the
    fallback add of its DOWN record raises too, the batch over that one
    server stores no record. *)
Lemma batch_one_record_each_counterexample :
  ~ (forall d now run completion,
       Permutation completion (get_servers d) ->
       List.length (db_records (ping_all_servers d now run completion true))
       = (List.length (db_records d) + List.length (get_servers d))%nat).
Proof.
  intros H.
  specialize (H {| db_servers := [mkServer 1 "api" "https://api.example" None 0 0];
                   db_records := [] |} 100
                (fun _ => mkTargetRun (UP, Some 12%Q) RaisesBeforeAdd true)
                [mkServer 1 "api" "https://api.example" None 0 0]
                (Permutation_refl _)).
  vm_compute in H. discriminate H.
Qed.

(** C6 (amended). Take a batch whose commit succeeds, the handlers reaching
    their adds in any order [completion] of the servers. If for no server
    the fallback add of its DOWN record raises, nor its handler raises after
    its record was added, the batch stores exactly one record per server, in
    completion order: the probe's outcome, or DOWN without a response time
    for a server whose probe or record creation raised. A batch over no
    server leaves the store as it is, whatever happens. A server whose probe
    or record creation raises and whose fallback add raises too gets no
    record (server ids being distinct). *)
Theorem batch_one_record_each (d : Database) (now : Z) (run : Server -> TargetRun)
  (completion : list Server) (Hperm : Permutation completion (get_servers d)) :
  ((forall s, In s (get_servers d) ->
      run_fault (run s) <> RaisesAfterAdd /\ fallback_add_raises (run s) = false) ->
   db_records (ping_all_servers d now run completion true)
   = db_records d ++ map (expected_record now run) completion
   /\ Permutation (map (expected_record now run) completion)
        (map (expected_record now run) (get_servers d)))
  /\ (get_servers d = [] -> forall run' completion' commit_ok,
        ping_all_servers d now run' completion' commit_ok = d)
  /\ (forall s, In s (get_servers d) ->
        run_fault (run s) = RaisesBeforeAdd -> fallback_add_raises (run s) = true ->
        NoDup (map srv_id (get_servers d)) ->
        exists session,
          db_records (ping_all_servers d now run completion true)
          = db_records d ++ session
          /\ forall r, In r session -> server_id r <> srv_id s).
Proof.
  assert (Hrec : db_records (ping_all_servers d now run completion true)
                 = db_records d
                   ++ flat_map (fun s => fst (ping_and_record [] s now (run s)))
                        completion).
  { unfold ping_all_servers.
    destruct (get_servers d) as [|s0 rest] eqn:Es.
    - apply Permutation_sym, Permutation_nil in Hperm. subst. simpl.
      now rewrite app_nil_r.
    - rewrite batch_session. reflexivity. }
  split; [|split].
  - intros Hsafe. split; [|now apply Permutation_map].
    rewrite Hrec. f_equal. apply batch_all_safe.
    intros s Hs. apply Hsafe. eapply Permutation_in; [exact Hperm|exact Hs].
  - intros Hnil run' completion' commit_ok. unfold ping_all_servers.
    rewrite Hnil. reflexivity.
  - intros s Hs Hf Hfb Hnd.
    eexists. split; [exact Hrec|].
    intros r Hr. apply in_flat_map in Hr. destruct Hr as [s' [Hs' Hr]].
    pose proof (handler_server_id now (run s') s' r Hr) as Hid.
    rewrite Hid. intros Heq.
    assert (Hs'' : In s' (get_servers d)) by (eapply Permutation_in; eauto).
    pose proof (NoDup_map_eq srv_id _ s' s Hnd Hs'' Hs Heq) as ->.
    unfold ping_and_record in Hr. rewrite Hf, Hfb in Hr. destruct Hr.
Qed.

Lemma batch_one_record_each_witness :
  Permutation [demo_web; demo_api] (get_servers demo_store) /\
  db_records (ping_all_servers demo_store 100
                (fun s => if srv_id s =? 1
                          then mkTargetRun (UP, Some 12%Q) NoFault false
                          else mkTargetRun (DOWN, Some 30%Q) NoFault false)
                [demo_web; demo_api] true)
  = db_records demo_store
    ++ [new_record 2 DOWN (Some 30%Q) 100; new_record 1 UP (Some 12%Q) 100] /\
  exists session,
    db_records (ping_all_servers demo_store 100
                  (fun s => if srv_id s =? 1
                            then mkTargetRun (UP, Some 12%Q) RaisesBeforeAdd true
                            else mkTargetRun (DOWN, Some 30%Q) NoFault false)
                  [demo_web; demo_api] true)
    = db_records demo_store ++ session
    /\ forall r, In r session -> server_id r <> 1.
Proof.
  assert (Hp : Permutation [demo_web; demo_api] (get_servers demo_store))
    by (vm_compute; apply perm_swap).
  split; [exact Hp|]. split.
  - destruct (batch_one_record_each demo_store 100
                (fun s => if srv_id s =? 1
                          then mkTargetRun (UP, Some 12%Q) NoFault false
                          else mkTargetRun (DOWN, Some 30%Q) NoFault false)
                _ Hp) as [H1 _].
    rewrite (proj1 (H1 ltac:(intros s _; destruct (srv_id s =? 1);
                               split; (discriminate || reflexivity)))).
    reflexivity.
  - destruct (batch_one_record_each demo_store 100
                (fun s => if srv_id s =? 1
                          then mkTargetRun (UP, Some 12%Q) RaisesBeforeAdd true
                          else mkTargetRun (DOWN, Some 30%Q) NoFault false)
                _ Hp) as [_ [_ H3]].
    assert (Hin : In demo_api (get_servers demo_store)) by (vm_compute; auto).
    assert (Hnd : NoDup (map srv_id (get_servers demo_store))).
    { vm_compute. apply NoDup_cons; [intros [H|[]]; discriminate|].
      apply NoDup_cons; [intros []|apply NoDup_nil]. }
    exact (H3 demo_api Hin eq_refl eq_refl Hnd).
Defined.

(** ** C9: the scheduler lifecycle *)

Lemma active_loops_eq (s : Scheduler) :
  active_loops s = List.length (filter is_active (tasks s)).
Proof. reflexivity. Qed.

Lemma filter_active_app (l l' : list task_state) :
  List.length (filter is_active (l ++ l'))
  = (List.length (filter is_active l) + List.length (filter is_active l'))%nat.
Proof. rewrite filter_app, length_app. reflexivity. Qed.

Lemma set_nth_done (l : list task_state) (i : nat) :
  nth_error l i = Some Active ->
  S (List.length (filter is_active (set_nth i Done l)))
  = List.length (filter is_active l).
Proof.
  revert i. induction l as [|t l IH]; intros i H; [destruct i; discriminate|].
  destruct i as [|i]; simpl in H.
  - inversion H. reflexivity.
  - specialize (IH i H). destruct t; simpl; rewrite <- IH; reflexivity.
Qed.

(** Every reachable scheduler is either stopped with no loop running, or
    running with its task the single running loop. *)
Lemma scheduler_invariant (s : Scheduler) :
  reachable s ->
  (_ping_task s = None /\ _running s = false /\ active_loops s = 0%nat) \/
  (exists i, _ping_task s = Some i /\ nth_error (tasks s) i = Some Active /\
             _running s = true /\ active_loops s = 1%nat).
Proof.
  induction 1 as [|s Hr IH|s Hr IH].
  - left. auto.
  - destruct IH as [[Hp [Hrun Ha]]|[i [Hp [Hi [Hrun Ha]]]]].
    + right. exists (List.length (tasks s)).
      unfold start_ping_scheduler. rewrite Hp. cbn [_ping_task tasks _running].
      split; [reflexivity|]. split.
      * rewrite nth_error_app2 by lia. rewrite Nat.sub_diag. reflexivity.
      * split; [reflexivity|]. rewrite active_loops_eq. cbn [tasks].
        rewrite filter_active_app. rewrite active_loops_eq in Ha. rewrite Ha.
        reflexivity.
    + right. exists i. unfold start_ping_scheduler, task_done. rewrite Hp, Hi.
      simpl. auto.
  - destruct IH as [[Hp [Hrun Ha]]|[i [Hp [Hi [Hrun Ha]]]]].
    + left. unfold stop_ping_scheduler. rewrite Hp. simpl. auto.
    + left. unfold stop_ping_scheduler. rewrite Hp. cbn [_ping_task _running].
      split; [reflexivity|]. split; [reflexivity|].
      rewrite active_loops_eq. cbn [tasks].
      pose proof (set_nth_done (tasks s) i Hi) as Hs.
      rewrite active_loops_eq in Ha. lia.
Qed.

(** C9. For every scheduler reachable from the initial one by calls of
    [start_ping_scheduler] and [stop_ping_scheduler]: starting it when it is
    RUNNING changes nothing; stopping it when it is STOPPED changes nothing;
    exactly one ping loop runs when it is RUNNING and none when it is
    STOPPED; and stopping then starting it leaves it RUNNING with exactly one
    ping loop. *)
Theorem scheduler_lifecycle (s : Scheduler) (Hr : reachable s) :
  (state_of s = RUNNING -> start_ping_scheduler s = s) /\
  (state_of s = STOPPED -> stop_ping_scheduler s = s) /\
  active_loops s = match state_of s with RUNNING => 1%nat | STOPPED => 0%nat end /\
  state_of (start_ping_scheduler (stop_ping_scheduler s)) = RUNNING /\
  active_loops (start_ping_scheduler (stop_ping_scheduler s)) = 1%nat.
Proof.
  pose proof (scheduler_invariant s Hr) as Hinv.
  pose proof (scheduler_invariant _ (reach_start _ (reach_stop s Hr))) as Hinv2.
  assert (Hst : _ping_task (stop_ping_scheduler s) = None).
  { unfold stop_ping_scheduler. destruct (_ping_task s); reflexivity. }
  split; [|split; [|split; [|split]]].
  - unfold state_of, start_ping_scheduler.
    destruct (_ping_task s) as [i|]; [|discriminate].
    destruct (task_done s i); [discriminate|reflexivity].
  - intros Hs. destruct Hinv as [[Hp [Hrun _]]|[i [Hp [Hi _]]]].
    + destruct s as [ts p r]. simpl in Hp, Hrun. subst p r.
      reflexivity.
    + unfold state_of, task_done in Hs. rewrite Hp, Hi in Hs. discriminate.
  - destruct Hinv as [[Hp [_ Ha]]|[i [Hp [Hi [_ Ha]]]]].
    + unfold state_of. rewrite Hp. exact Ha.
    + unfold state_of, task_done. rewrite Hp, Hi. exact Ha.
  - unfold start_ping_scheduler at 1. rewrite Hst.
    unfold state_of, task_done. simpl.
    rewrite nth_error_app2 by lia. rewrite Nat.sub_diag. reflexivity.
  - destruct Hinv2 as [[Hp _]|[i [_ [_ [_ Ha]]]]]; [|exact Ha].
    unfold start_ping_scheduler in Hp. rewrite Hst in Hp. discriminate.
Qed.

Lemma scheduler_lifecycle_witness :
  reachable (start_ping_scheduler scheduler_init) /\
  state_of (start_ping_scheduler (stop_ping_scheduler
              (start_ping_scheduler scheduler_init))) = RUNNING.
Proof.
  assert (H : reachable (start_ping_scheduler scheduler_init))
    by (apply reach_start; apply reach_init).
  split; [exact H|].
  exact (proj1 (proj2 (proj2 (proj2 (scheduler_lifecycle _ H))))).
Defined.

(** * Further properties of the services *)

(** ** Server listing order *)

(** Neither of two servers comes strictly before the other in both
    directions. *)
Lemma server_before_asym (a b : Server) :
  server_before a b = true -> server_before b a = false.
Proof.
  unfold server_before. intros H.
  apply orb_true_iff in H.
  rewrite andb_true_iff in H.
  repeat rewrite ?Z.ltb_lt, ?Z.eqb_eq in H.
  destruct (Z.ltb_spec (srv_display_order b) (srv_display_order a));
  destruct (Z.eqb_spec (srv_display_order b) (srv_display_order a));
  destruct (Z.ltb_spec (srv_created_at a) (srv_created_at b)); simpl;
  auto; lia.
Qed.

Lemma insert_server_perm (s : Server) (l : list Server) :
  Permutation (insert_server s l) (s :: l).
Proof.
  induction l as [|t l IH]; simpl; [auto|].
  destruct (server_before s t); [auto|].
  eapply perm_trans; [apply perm_skip, IH|]. apply perm_swap.
Qed.

Lemma insert_server_sorted (s : Server) (l : list Server) :
  Sorted listed_before l -> Sorted listed_before (insert_server s l).
Proof.
  induction 1 as [|t l Hs IH Hhd]; simpl; [repeat constructor|].
  destruct (server_before s t) eqn:E.
  - constructor; [constructor; auto|].
    constructor. unfold listed_before. now apply server_before_asym.
  - constructor; [exact IH|].
    destruct l as [|u l]; simpl.
    + constructor. exact E.
    + inversion Hhd; subst.
      destruct (server_before s u); constructor; auto.
Qed.

Lemma get_servers_perm (d : Database) :
  Permutation (get_servers d) (db_servers d).
Proof.
  unfold get_servers. induction (db_servers d) as [|s l IH]; simpl; [auto|].
  eapply perm_trans; [apply insert_server_perm|]. now apply perm_skip.
Qed.

(** X1. [get_servers] returns every stored server exactly once, ordered by
    display order ascending and, within one display order, by creation
    time descending. *)
Theorem get_servers_sorted_perm (d : Database) :
  Permutation (get_servers d) (db_servers d)
  /\ Sorted (fun a b => server_before b a = false) (get_servers d).
Proof.
  split; [apply get_servers_perm|].
  unfold get_servers. induction (db_servers d) as [|s l IH]; simpl.
  - constructor.
  - now apply insert_server_sorted.
Qed.

(** ** create_server *)

Lemma last_server_of_max (l : list Server) :
  match last_server_of l with
  | Some m => In m l /\ forall s, In s l -> srv_display_order s <= srv_display_order m
  | None => l = []
  end.
Proof.
  unfold last_server_of.
  assert (G : forall acc,
    match fold_left (fun acc s =>
               match acc with
               | Some m => if srv_display_order m <? srv_display_order s
                           then Some s else acc
               | None => Some s
               end) l acc with
    | Some m => (acc = Some m \/ In m l) /\
                (forall s, In s l -> srv_display_order s <= srv_display_order m) /\
                (forall a, acc = Some a -> srv_display_order a <= srv_display_order m)
    | None => acc = None /\ l = []
    end).
  { induction l as [|x l IH]; intros acc; simpl.
    - destruct acc as [a|]; [|auto]. split; [auto|]. split; [tauto|].
      intros a' H; inversion H; lia.
    - specialize (IH (match acc with
                      | Some m => if srv_display_order m <? srv_display_order x
                                  then Some x else acc
                      | None => Some x end)).
      destruct (fold_left _ l _) as [m|] eqn:E.
      + destruct IH as [[Hm|Hm] [Hall Hacc]].
        * destruct acc as [a|].
          -- destruct (Z.ltb_spec (srv_display_order a) (srv_display_order x)).
             ++ inversion Hm; subst. split; [auto|]. split.
                ** intros s [<-|Hs]; [specialize (Hacc m eq_refl); lia|auto].
                ** intros a' Ha'; inversion Ha'; subst. lia.
             ++ inversion Hm; subst. split; [auto|]. split.
                ** intros s [<-|Hs]; [lia|auto].
                ** intros a' Ha'; inversion Ha'; subst; lia.
          -- inversion Hm; subst. split; [auto|]. split.
             ++ intros s [<-|Hs]; [lia|auto].
             ++ discriminate.
        * split; [auto|]. split.
          -- intros s [<-|Hs]; [|auto].
             destruct acc as [a|]; [|specialize (Hacc x eq_refl); lia].
             destruct (Z.ltb_spec (srv_display_order a) (srv_display_order x));
               specialize (Hacc _ eq_refl); lia.
          -- intros a Ha; subst.
             destruct (Z.ltb_spec (srv_display_order a) (srv_display_order x));
               specialize (Hacc _ eq_refl); lia.
      + destruct IH as [Hn _].
        destruct acc as [a|]; [destruct (srv_display_order a <? srv_display_order x)|];
          discriminate. }
  specialize (G None). destruct (fold_left _ l None) as [m|].
  - destruct G as [[Hm|Hm] [Hall _]]; [discriminate|]. auto.
  - tauto.
Qed.

Lemma insert_server_app_last (x s : Server) (l : list Server) :
  server_before x s = true ->
  insert_server x (l ++ [s]) = insert_server x l ++ [s].
Proof.
  intros Hx. induction l as [|t l IH]; simpl.
  - now rewrite Hx.
  - destruct (server_before x t); [reflexivity|]. now rewrite IH.
Qed.

Lemma sort_servers_app_last (l : list Server) (s : Server) :
  (forall t, In t l -> server_before t s = true) ->
  fold_right insert_server [] (l ++ [s]) = fold_right insert_server [] l ++ [s].
Proof.
  intros H. induction l as [|t l IH]; simpl; [reflexivity|].
  rewrite IH by (intros; apply H; simpl; auto).
  apply insert_server_app_last, H. simpl; auto.
Qed.

(** X2. A server created with display order 0 gets order 0 in an empty
    directory, and otherwise the largest existing order plus one, above
    every existing order; so [get_servers] lists it after all the servers
    that were there, whose order is unchanged. *)
Theorem create_server_listed_last (d : Database) (data : ServerCreate)
  (new_id now : Z) :
  sc_display_order data = 0 ->
  (db_servers d = [] ->
     srv_display_order (snd (create_server d data new_id now)) = 0)
  /\ (db_servers d <> [] ->
       (exists t, In t (db_servers d)
                  /\ srv_display_order (snd (create_server d data new_id now))
                     = srv_display_order t + 1)
       /\ forall t, In t (db_servers d) ->
            srv_display_order t
            < srv_display_order (snd (create_server d data new_id now)))
  /\ get_servers (fst (create_server d data new_id now))
     = get_servers d ++ [snd (create_server d data new_id now)].
Proof.
  intros H0.
  pose proof (last_server_of_max (db_servers d)) as M.
  unfold create_server. rewrite H0. simpl.
  split; [|split].
  - intros Hnil. destruct (last_server_of (db_servers d)) as [m|]; [|reflexivity].
    destruct M as [Hm _]. rewrite Hnil in Hm. destruct Hm.
  - intros Hne. destruct (last_server_of (db_servers d)) as [m|]; [|contradiction].
    destruct M as [Hm Hmax]. split.
    + exists m. split; [exact Hm|reflexivity].
    + intros t Ht. specialize (Hmax t Ht). lia.
  - unfold get_servers; simpl. apply sort_servers_app_last.
    intros t Ht. unfold server_before; simpl.
    destruct (last_server_of (db_servers d)) as [m|].
    + destruct M as [_ M]. specialize (M t Ht).
      apply orb_true_iff; left. apply Z.ltb_lt. lia.
    + rewrite M in Ht. destruct Ht.
Qed.

Lemma create_server_listed_last_witness :
  sc_display_order demo_create = 0 /\
  srv_display_order (snd (create_server demo_store demo_create 3 9000)) = 2 /\
  get_servers (fst (create_server demo_store demo_create 3 9000))
  = get_servers demo_store ++ [snd (create_server demo_store demo_create 3 9000)].
Proof.
  assert (H : sc_display_order demo_create = 0) by reflexivity.
  split; [exact H|]. split; [vm_compute; reflexivity|].
  exact (proj2 (proj2 (create_server_listed_last demo_store demo_create 3 9000 H))).
Defined.

Lemma find_app_none {A} (f : A -> bool) (l l' : list A) :
  find f l = None -> find f (l ++ l') = find f l'.
Proof.
  induction l as [|x l IH]; simpl; [auto|]. destruct (f x); [discriminate|auto].
Qed.

(** X3. When the id handed to a new server is not in use, [get_server] on
    that id then returns exactly the created server. *)
Theorem create_server_get (d : Database) (data : ServerCreate) (new_id now : Z) :
  get_server d new_id = None ->
  get_server (fst (create_server d data new_id now)) new_id
  = Some (snd (create_server d data new_id now)).
Proof.
  unfold get_server, create_server. simpl. intros H.
  rewrite find_app_none by exact H. simpl. now rewrite Z.eqb_refl.
Qed.

Lemma create_server_get_witness :
  get_server demo_store 3 = None /\
  get_server (fst (create_server demo_store demo_create 3 9000)) 3
  = Some (snd (create_server demo_store demo_create 3 9000)).
Proof.
  assert (H : get_server demo_store 3 = None) by (vm_compute; reflexivity).
  split; [exact H|].
  exact (create_server_get demo_store demo_create 3 9000 H).
Defined.

(** ** update_server *)

Lemma find_map_update (sid k : Z) (f : Server -> Server) (l : list Server) :
  (forall s, srv_id (f s) = srv_id s) ->
  find (fun s => srv_id s =? k)
    (map (fun s => if srv_id s =? sid then f s else s) l)
  = if k =? sid then option_map f (find (fun s => srv_id s =? k) l)
    else find (fun s => srv_id s =? k) l.
Proof.
  intros Hf. induction l as [|x l IH]; simpl.
  - destruct (k =? sid); reflexivity.
  - destruct (Z.eqb_spec (srv_id x) sid) as [E|E]; simpl.
    + rewrite Hf. destruct (Z.eqb_spec (srv_id x) k); destruct (Z.eqb_spec k sid);
        simpl; try lia; auto.
    + destruct (Z.eqb_spec (srv_id x) k); destruct (Z.eqb_spec k sid);
        simpl; try lia; auto.
Qed.

(** X4. [update_server] on a missing id returns [None] and changes nothing.
    On an existing id, a payload sending [null] for [name] or [url] makes the
    flush raise on the [NOT NULL] column and the store is left as it was;
    any other payload returns the server with the sent fields applied, keeps
    its id, display order and creation time, makes [get_server] return the
    updated server for that id and leaves every other server and all records
    as they were. *)
Theorem update_server_spec (d : Database) (sid : Z) (u : ServerUpdate) :
  match get_server d sid with
  | None => update_server d sid u = (d, Returns None)
  | Some s =>
      if writes_null u then update_server d sid u = (d, RaisesIntegrityError)
      else
        snd (update_server d sid u) = Returns (Some (apply_update s u))
        /\ srv_id (apply_update s u) = sid
        /\ srv_display_order (apply_update s u) = srv_display_order s
        /\ srv_created_at (apply_update s u) = srv_created_at s
        /\ (forall k, get_server (fst (update_server d sid u)) k
                      = if k =? sid then Some (apply_update s u) else get_server d k)
        /\ db_records (fst (update_server d sid u)) = db_records d
  end.
Proof.
  unfold update_server. destruct (get_server d sid) as [s|] eqn:E; [|reflexivity].
  destruct (writes_null u) eqn:Hn; [reflexivity|].
  assert (Hid : srv_id s = sid).
  { unfold get_server in E. apply find_some in E. destruct E as [_ E].
    now apply Z.eqb_eq. }
  simpl. repeat split; auto.
  intros k. unfold get_server; simpl.
  rewrite find_map_update by reflexivity.
  destruct (Z.eqb_spec k sid) as [->|]; [|reflexivity].
  fold (get_server d sid). now rewrite E.
Qed.

(** ** delete_server *)

Lemma find_filter_other (sid k : Z) (l : list Server) :
  k <> sid ->
  find (fun s => srv_id s =? k) (filter (fun s => negb (srv_id s =? sid)) l)
  = find (fun s => srv_id s =? k) l.
Proof.
  intros Hk. induction l as [|x l IH]; simpl; [auto|].
  destruct (Z.eqb_spec (srv_id x) sid); simpl.
  - destruct (Z.eqb_spec (srv_id x) k); [lia|auto].
  - destruct (srv_id x =? k); auto.
Qed.

Lemma find_filter_self (sid : Z) (l : list Server) :
  find (fun s => srv_id s =? sid) (filter (fun s => negb (srv_id s =? sid)) l)
  = None.
Proof.
  induction l as [|x l IH]; simpl; [auto|].
  destruct (srv_id x =? sid) eqn:E; simpl; [auto|]. now rewrite E.
Qed.

(** X5. [delete_server] on a missing id returns [False] and changes nothing;
    on an existing id it returns [True], [get_server] then finds nothing for
    that id, none of the server's records is left (cascade), and every other
    server and its records are untouched. *)
Theorem delete_server_spec (d : Database) (sid : Z) :
  match get_server d sid with
  | None => delete_server d sid = (d, false)
  | Some _ =>
      snd (delete_server d sid) = true
      /\ get_server (fst (delete_server d sid)) sid = None
      /\ (forall r, In r (db_records (fst (delete_server d sid)))
                    -> server_id r <> sid)
      /\ (forall k, k <> sid ->
            get_server (fst (delete_server d sid)) k = get_server d k
            /\ filter (fun r => server_id r =? k)
                 (db_records (fst (delete_server d sid)))
               = filter (fun r => server_id r =? k) (db_records d))
  end.
Proof.
  unfold delete_server. destruct (get_server d sid) as [s|]; [|reflexivity].
  simpl. split; [reflexivity|]. split; [apply find_filter_self|]. split.
  - intros r Hr. apply filter_In in Hr. destruct Hr as [_ Hr].
    destruct (Z.eqb_spec (server_id r) sid); [discriminate|auto].
  - intros k Hk. split; [now apply find_filter_other|].
    induction (db_records d) as [|r l IH]; simpl; [reflexivity|].
    destruct (Z.eqb_spec (server_id r) sid); simpl.
    + destruct (Z.eqb_spec (server_id r) k); [lia|exact IH].
    + destruct (server_id r =? k); [f_equal|]; exact IH.
Qed.

(** ** reorder_servers *)

Lemma get_server_set_order (d : Database) (sid o k : Z) :
  get_server (set_display_order sid o d) k
  = if k =? sid then option_map (fun s => with_display_order s o) (get_server d k)
    else get_server d k.
Proof.
  unfold get_server, set_display_order; simpl.
  apply find_map_update. reflexivity.
Qed.

Lemma last_order_for_acc (items : list (Z * Z)) (k : Z) (acc : option Z) :
  fold_left (fun acc item => if fst item =? k then Some (snd item) else acc)
    items acc
  = match last_order_for items k with Some o => Some o | None => acc end.
Proof.
  unfold last_order_for. revert acc.
  induction items as [|it items IH]; intros acc; simpl; [reflexivity|].
  rewrite (IH (if fst it =? k then Some (snd it) else acc)).
  rewrite (IH (if fst it =? k then Some (snd it) else None)).
  destruct (fold_left _ items None); [reflexivity|].
  destruct (fst it =? k); reflexivity.
Qed.

Lemma reorder_fold_get (items : list (Z * Z)) (d : Database) (k : Z) :
  get_server
    (fold_left (fun d item =>
                  match get_server d (fst item) with
                  | Some _ => set_display_order (fst item) (snd item) d
                  | None => d
                  end) items d) k
  = option_map (apply_order (last_order_for items k)) (get_server d k).
Proof.
  revert d. induction items as [|it items IH]; intros d; simpl.
  - destruct (get_server d k); reflexivity.
  - rewrite IH.
    unfold last_order_for at 2. simpl. rewrite last_order_for_acc.
    destruct (get_server d (fst it)) as [s|] eqn:E.
    + rewrite get_server_set_order.
      destruct (Z.eqb_spec k (fst it)) as [->|Hk].
      * rewrite Z.eqb_refl, E. simpl.
        destruct (last_order_for items (fst it)); reflexivity.
      * destruct (Z.eqb_spec (fst it) k); [lia|].
        destruct (last_order_for items k); reflexivity.
    + destruct (Z.eqb_spec (fst it) k) as [<-|]; [rewrite E|];
        destruct (last_order_for items _); reflexivity.
Qed.

Lemma reorder_fold_records (items : list (Z * Z)) (d : Database) :
  db_records
    (fold_left (fun d item =>
                  match get_server d (fst item) with
                  | Some _ => set_display_order (fst item) (snd item) d
                  | None => d
                  end) items d) = db_records d.
Proof.
  revert d. induction items as [|it items IH]; intros d; simpl; [reflexivity|].
  rewrite IH. destruct (get_server d (fst it)); reflexivity.
Qed.

(** X6. [reorder_servers] always returns [True] and leaves the records alone;
    afterwards each existing server has the display order of the last item
    naming it (unchanged when no item does, all other fields kept), and ids
    no server has are ignored. *)
Theorem reorder_servers_spec (d : Database) (items : list (Z * Z)) :
  snd (reorder_servers d items) = true
  /\ db_records (fst (reorder_servers d items)) = db_records d
  /\ forall k, get_server (fst (reorder_servers d items)) k
       = option_map
           (fun s => match last_order_for items k with
                     | Some o => with_display_order s o
                     | None => s
                     end) (get_server d k).
Proof.
  split; [reflexivity|]. split; [apply reorder_fold_records|].
  intros k. unfold reorder_servers; simpl. apply reorder_fold_get.
Qed.

(** ** get_servers_with_status *)

Lemma latest_record_gen (recs : list UptimeRecord) (sid : Z)
  (acc : option UptimeRecord) (accm : option Z) :
  option_map timestamp acc = accm ->
  (forall a, acc = Some a -> server_id a = sid) ->
  option_map timestamp
    (fold_left (fun acc r =>
               if server_id r =? sid then
                 match acc with
                 | Some a => if timestamp a <? timestamp r then Some r else acc
                 | None => Some r
                 end
               else acc) recs acc)
  = fold_left (fun acc r =>
               if server_id r =? sid then
                 match acc with
                 | Some m => Some (Z.max m (timestamp r))
                 | None => Some (timestamp r)
                 end
               else acc) recs accm
  /\ (forall a, fold_left (fun acc r =>
               if server_id r =? sid then
                 match acc with
                 | Some a => if timestamp a <? timestamp r then Some r else acc
                 | None => Some r
                 end
               else acc) recs acc = Some a -> server_id a = sid).
Proof.
  revert acc accm. induction recs as [|r recs IH]; intros acc accm Hm Hs; simpl.
  - auto.
  - apply IH.
    + destruct (Z.eqb_spec (server_id r) sid); [|exact Hm].
      destruct acc as [a|]; subst accm; simpl; [|reflexivity].
      destruct (Z.ltb_spec (timestamp a) (timestamp r)); simpl; f_equal; lia.
    + intros a Ha. destruct (Z.eqb_spec (server_id r) sid); [|auto].
      destruct acc as [a0|].
      * destruct (timestamp a0 <? timestamp r); [inversion Ha; subst; auto|auto].
      * inversion Ha; subst; auto.
Qed.

Lemma latest_record_max_ts (recs : list UptimeRecord) (sid : Z) :
  option_map timestamp (latest_record recs sid) = max_ts recs sid
  /\ (forall a, latest_record recs sid = Some a -> server_id a = sid).
Proof.
  apply latest_record_gen; [reflexivity|discriminate].
Qed.

Lemma max_ts_none (recs : list UptimeRecord) (sid : Z) :
  max_ts recs sid = None <-> (forall r, In r recs -> server_id r <> sid).
Proof.
  unfold max_ts.
  assert (G : forall acc,
    fold_left (fun acc r =>
               if server_id r =? sid then
                 match acc with
                 | Some m => Some (Z.max m (timestamp r))
                 | None => Some (timestamp r)
                 end
               else acc) recs acc = None
    <-> acc = None /\ (forall r, In r recs -> server_id r <> sid)).
  { induction recs as [|r recs IH]; intros acc; simpl.
    - intuition.
    - rewrite IH. destruct (Z.eqb_spec (server_id r) sid).
      + split; [intros [H1 _]; destruct acc; discriminate|].
        intros [_ H2]. exfalso. apply (H2 r); auto.
      + split; intros [H1 H2]; split; auto; intros r' Hr';
          try (destruct Hr' as [<-|Hr']; auto; fail); apply H2; simpl; auto. }
  rewrite G. intuition.
Qed.

(** X7. In [get_servers_with_status], each entry belongs to a stored server,
    its [last_ping] is the largest timestamp among that server's records,
    and its [current_status] is [None] exactly when the server has no
    record. *)
Theorem servers_with_status_latest (d : Database) (e : ServerWithStatus) :
  In e (get_servers_with_status d) ->
  ws_last_ping e = max_ts (db_records d) (ws_id e)
  /\ (ws_current_status e = None
      <-> forall r, In r (db_records d) -> server_id r <> ws_id e)
  /\ (exists s, In s (db_servers d) /\ ws_id e = srv_id s).
Proof.
  unfold get_servers_with_status. intros He. apply in_map_iff in He.
  destruct He as [s [<- Hs]]. simpl.
  destruct (latest_record_max_ts (db_records d) (srv_id s)) as [H1 _].
  split; [exact H1|]. split.
  - rewrite <- max_ts_none, <- H1.
    destruct (latest_record (db_records d) (srv_id s)); simpl; split; congruence.
  - exists s. split; [|reflexivity].
    eapply Permutation_in; [apply get_servers_perm|exact Hs].
Qed.

Lemma servers_with_status_latest_witness :
  In (mkServerWithStatus 1 "api" "https://api.example.com" None 0 100
        (Some DOWN) (Some 7200) None) (get_servers_with_status demo_store) /\
  ws_last_ping (mkServerWithStatus 1 "api" "https://api.example.com" None 0 100
                  (Some DOWN) (Some 7200) None)
  = max_ts (db_records demo_store) 1.
Proof.
  assert (H : In (mkServerWithStatus 1 "api" "https://api.example.com" None 0 100
                    (Some DOWN) (Some 7200) None)
                 (get_servers_with_status demo_store))
    by (vm_compute; left; reflexivity).
  split; [exact H|].
  exact (proj1 (servers_with_status_latest demo_store _ H)).
Defined.

(** X8. The route [GET /servers/{id}], which scans
    [get_servers_with_status], answers 404 exactly when [get_server] finds
    no server with that id. *)
Theorem route_get_server_404 (d : Database) (sid : Z) :
  route_get_server d sid = None <-> get_server d sid = None.
Proof.
  unfold route_get_server, get_server, get_servers_with_status.
  split; intros H.
  - destruct (find (fun s => srv_id s =? sid) (db_servers d)) as [s|] eqn:E;
      [|reflexivity].
    exfalso. apply find_some in E. destruct E as [Hin Hid].
    assert (Hin' : In s (get_servers d)).
    { eapply Permutation_in; [symmetry; apply get_servers_perm|exact Hin]. }
    pose proof (find_none _ _ H) as N.
    specialize (N _ (in_map _ _ _ Hin')). simpl in N. congruence.
  - destruct (find _ (map _ (get_servers d))) as [e|] eqn:E; [|reflexivity].
    exfalso. apply find_some in E. destruct E as [Hin Hid].
    apply in_map_iff in Hin. destruct Hin as [s [<- Hs]]. simpl in Hid.
    assert (Hs' : In s (db_servers d)).
    { eapply Permutation_in; [apply get_servers_perm|exact Hs]. }
    pose proof (find_none _ _ H s Hs'). congruence.
Qed.

(** ** History *)

Lemma insert_by_ts_perm (r : UptimeRecord) (l : list UptimeRecord) :
  Permutation (insert_by_ts r l) (r :: l).
Proof.
  induction l as [|x l IH]; simpl; [auto|].
  destruct (timestamp r <=? timestamp x); [auto|].
  eapply perm_trans; [apply perm_skip, IH|]. apply perm_swap.
Qed.

Lemma insert_by_ts_sorted (r : UptimeRecord) (l : list UptimeRecord) :
  Sorted ts_le l -> Sorted ts_le (insert_by_ts r l).
Proof.
  induction 1 as [|x l Hs IH Hhd]; simpl; [repeat constructor|].
  destruct (Z.leb_spec (timestamp r) (timestamp x)).
  - constructor; [constructor; auto|]. constructor. exact H.
  - constructor; [exact IH|].
    destruct l as [|u l]; simpl.
    + constructor. unfold ts_le. lia.
    + inversion Hhd; subst.
      destruct (timestamp r <=? timestamp u); constructor; auto.
      unfold ts_le. lia.
Qed.

Lemma sort_by_ts_perm (l : list UptimeRecord) : Permutation (sort_by_ts l) l.
Proof.
  unfold sort_by_ts. induction l as [|r l IH]; simpl; [auto|].
  eapply perm_trans; [apply insert_by_ts_perm|]. now apply perm_skip.
Qed.

Lemma sort_by_ts_sorted (l : list UptimeRecord) : Sorted ts_le (sort_by_ts l).
Proof.
  unfold sort_by_ts. induction l as [|r l IH]; simpl; [constructor|].
  now apply insert_by_ts_sorted.
Qed.

(** X9. [get_server_uptime_history] returns exactly the server's records with
    a timestamp at or after [now] minus [hours] hours, each once, oldest first. *)
Theorem server_history_sorted_perm (d : Database) (sid now hours : Z) :
  Permutation (get_server_uptime_history d sid now hours)
    (filter (fun r => (server_id r =? sid) && (now - hours * 3600 <=? timestamp r))
       (db_records d))
  /\ Sorted (fun a b => timestamp a <= timestamp b)
       (get_server_uptime_history d sid now hours).
Proof.
  split; [apply sort_by_ts_perm|apply sort_by_ts_sorted].
Qed.

Lemma history_fold (recs : list UptimeRecord) (h : dict (list UptimeRecord))
  (k : Z) :
  dict_get_default k
    (fold_left (fun history r =>
                  dict_set (server_id r)
                    (dict_get_default (server_id r) history [] ++ [r]) history)
       recs h) []
  = dict_get_default k h [] ++ filter (fun r => server_id r =? k) recs.
Proof.
  revert h. induction recs as [|r recs IH]; intros h; simpl.
  - now rewrite app_nil_r.
  - rewrite IH, dict_get_default_set.
    destruct (Z.eqb_spec k (server_id r)) as [->|Hk].
    + rewrite Z.eqb_refl. now rewrite <- app_assoc.
    + destruct (Z.eqb_spec (server_id r) k); [lia|reflexivity].
Qed.

Lemma Permutation_filter' {A} (f : A -> bool) (l l' : list A) :
  Permutation l l' -> Permutation (filter f l) (filter f l').
Proof.
  induction 1 as [|x l l' _ IH|x y l|l l' l'' _ IH1 _ IH2]; simpl.
  - constructor.
  - destruct (f x); [now apply perm_skip|exact IH].
  - destruct (f x), (f y); try constructor; apply Permutation_refl.
  - eapply perm_trans; eauto.
Qed.

Lemma sorted_filter (p : UptimeRecord -> bool) (l : list UptimeRecord) :
  Sorted ts_le l -> Sorted ts_le (filter p l).
Proof.
  intros Hs. apply StronglySorted_Sorted.
  apply Sorted_StronglySorted in Hs; [|intros a b c; unfold ts_le; lia].
  induction Hs as [|x l Hs IH Hall]; simpl; [constructor|].
  destruct (p x); [|exact IH].
  constructor; [exact IH|].
  apply Forall_forall. intros y Hy. apply filter_In in Hy.
  rewrite Forall_forall in Hall. apply Hall, Hy.
Qed.

Lemma sorted_perm_eq (l1 l2 : list UptimeRecord) :
  Sorted ts_le l1 -> Sorted ts_le l2 -> Permutation l1 l2 ->
  NoDup (map timestamp l1) -> l1 = l2.
Proof.
  intros H1 H2.
  apply Sorted_StronglySorted in H1; [|intros a b c; unfold ts_le; lia].
  apply Sorted_StronglySorted in H2; [|intros a b c; unfold ts_le; lia].
  revert l2 H2. induction H1 as [|a t1 Hs1 IH Hall1]; intros l2 H2 Hp Hnd.
  - now apply Permutation_nil in Hp.
  - destruct H2 as [|b t2 Hs2 Hall2].
    + apply Permutation_sym, Permutation_nil in Hp. discriminate.
    + inversion Hnd as [|? ? Hnot Hnd']; subst.
      assert (Hab : a = b).
      { destruct (Permutation_in a Hp (or_introl eq_refl)) as [->|Ha]; [reflexivity|].
        destruct (Permutation_in b (Permutation_sym Hp) (or_introl eq_refl))
          as [<-|Hb]; [reflexivity|].
        rewrite Forall_forall in Hall1, Hall2.
        specialize (Hall1 b Hb). specialize (Hall2 a Ha). unfold ts_le in *.
        exfalso. apply Hnot. replace (timestamp a) with (timestamp b) by lia.
        now apply in_map. }
      subst b. f_equal. apply IH; auto.
      eapply Permutation_cons_inv. exact Hp.
Qed.

(** X10. Let [rows_all] and [rows_one] be what the database returns to the
    two history queries over the same window: the matching rows in some
    order by timestamp (SQL leaves rows with equal timestamps in any order).
    The list the grouping of [get_all_servers_uptime_history] holds for a
    server (empty when it has no key) has the same records as the
    single-server history [rows_one], oldest first, and is the same list
    when the server's records in the window have distinct timestamps. *)
Theorem all_history_matches_single (d : Database) (now hours sid : Z)
  (rows_all rows_one : list UptimeRecord) :
  Permutation rows_all
    (filter (fun r => now - hours * 3600 <=? timestamp r) (db_records d)) ->
  Sorted (fun a b => timestamp a <= timestamp b) rows_all ->
  Permutation rows_one
    (filter (fun r => (server_id r =? sid) && (now - hours * 3600 <=? timestamp r))
       (db_records d)) ->
  Sorted (fun a b => timestamp a <= timestamp b) rows_one ->
  Permutation (dict_get_default sid (group_history rows_all) []) rows_one
  /\ Sorted (fun a b => timestamp a <= timestamp b)
       (dict_get_default sid (group_history rows_all) [])
  /\ (NoDup (map timestamp rows_one) ->
      dict_get_default sid (group_history rows_all) [] = rows_one).
Proof.
  intros Pa Sa Po So.
  assert (Hg : dict_get_default sid (group_history rows_all) []
               = filter (fun r => server_id r =? sid) rows_all).
  { unfold group_history. rewrite history_fold. reflexivity. }
  assert (HP : Permutation (dict_get_default sid (group_history rows_all) [])
                 rows_one).
  { rewrite Hg. eapply perm_trans; [apply Permutation_filter', Pa|].
    rewrite filter_filter'. apply Permutation_sym.
    eapply perm_trans; [exact Po|].
    erewrite filter_ext; [apply Permutation_refl|].
    intros r. apply andb_comm. }
  assert (HS : Sorted ts_le (dict_get_default sid (group_history rows_all) [])).
  { rewrite Hg. apply sorted_filter, Sa. }
  split; [exact HP|]. split; [exact HS|].
  intros Hnd. apply sorted_perm_eq; [exact HS|exact So|exact HP|].
  apply (Permutation_NoDup (Permutation_map timestamp (Permutation_sym HP)) Hnd).
Qed.

Lemma all_history_matches_single_witness :
  Permutation (db_records demo_store)
    (filter (fun r => 9000 - 24 * 3600 <=? timestamp r) (db_records demo_store)) /\
  Sorted (fun a b => timestamp a <= timestamp b) (db_records demo_store) /\
  Permutation [mkUptimeRecord 1 UP (Some 40%Q) 3600; mkUptimeRecord 1 DOWN None 7200]
    (filter (fun r => (server_id r =? 1) && (9000 - 24 * 3600 <=? timestamp r))
       (db_records demo_store)) /\
  Sorted (fun a b => timestamp a <= timestamp b)
    [mkUptimeRecord 1 UP (Some 40%Q) 3600; mkUptimeRecord 1 DOWN None 7200] /\
  NoDup (map timestamp
    [mkUptimeRecord 1 UP (Some 40%Q) 3600; mkUptimeRecord 1 DOWN None 7200]) /\
  dict_get_default 1 (group_history (db_records demo_store)) []
  = [mkUptimeRecord 1 UP (Some 40%Q) 3600; mkUptimeRecord 1 DOWN None 7200].
Proof.
  assert (P1 : Permutation (db_records demo_store)
    (filter (fun r => 9000 - 24 * 3600 <=? timestamp r) (db_records demo_store)))
    by (vm_compute; apply Permutation_refl).
  assert (S1 : Sorted (fun a b => timestamp a <= timestamp b) (db_records demo_store))
    by (repeat constructor; simpl; lia).
  assert (P2 : Permutation
    [mkUptimeRecord 1 UP (Some 40%Q) 3600; mkUptimeRecord 1 DOWN None 7200]
    (filter (fun r => (server_id r =? 1) && (9000 - 24 * 3600 <=? timestamp r))
       (db_records demo_store)))
    by (vm_compute; apply Permutation_refl).
  assert (S2 : Sorted (fun a b => timestamp a <= timestamp b)
    [mkUptimeRecord 1 UP (Some 40%Q) 3600; mkUptimeRecord 1 DOWN None 7200])
    by (repeat constructor; simpl; lia).
  assert (N2 : NoDup (map timestamp
    [mkUptimeRecord 1 UP (Some 40%Q) 3600; mkUptimeRecord 1 DOWN None 7200])).
  { simpl. apply NoDup_cons; [intros [H|[]]; discriminate|].
    apply NoDup_cons; [intros []|apply NoDup_nil]. }
  repeat (split; [assumption|]).
  exact (proj2 (proj2 (all_history_matches_single demo_store 9000 24 1 _ _ P1 S1 P2 S2))
           N2).
Defined.

(** ** Statistics *)

Lemma round_half_even_le (y : Q) (m : Z) :
  (y <= inject_Z m)%Q -> round_half_even y <= m.
Proof.
  intros Hy. unfold round_half_even.
  assert (Hfy : (inject_Z (Qfloor y) <= y)%Q) by apply Qfloor_le.
  assert (Hfm : Qfloor y <= m).
  { rewrite <- (Qfloor_Z m). now apply Qfloor_resp_le. }
  destruct (Qltb (y - inject_Z (Qfloor y)) (1 # 2)) eqn:E1; [lia|].
  assert (Hlt : Qfloor y < m).
  { unfold Qltb in E1. apply negb_false_iff, Qle_bool_iff in E1.
    destruct (Z.lt_ge_cases (Qfloor y) m) as [|Hge]; [auto|exfalso].
    assert (Hq : (inject_Z m <= inject_Z (Qfloor y))%Q) by (rewrite <- Zle_Qle; lia).
    revert E1 Hy Hq. generalize (inject_Z (Qfloor y)) (inject_Z m).
    intros a b E1 Hy Hq. clear - E1 Hy Hq. lra. }
  destruct (Qltb (1 # 2) _); [lia|]. destruct (Z.even _); lia.
Qed.

Lemma py_round_le (x : Q) (n : nat) (m : Z) :
  (x <= inject_Z m)%Q -> (py_round x n <= inject_Z m)%Q.
Proof.
  intros Hx. unfold py_round.
  assert (Hp : 0 < 10 ^ Z.of_nat n) by (apply Z.pow_pos_nonneg; lia).
  assert (Hr : round_half_even (x * inject_Z (10 ^ Z.of_nat n))
               <= m * 10 ^ Z.of_nat n).
  { apply round_half_even_le. rewrite inject_Z_mult.
    apply Qmult_le_compat_r; [exact Hx|]. unfold Qle; simpl; lia. }
  unfold Qle; simpl. rewrite Z2Pos.id by exact Hp. lia.
Qed.

Lemma pct_nonneg (u t : Z) :
  0 <= u -> 0 < t -> (0 <= inject_Z u / inject_Z t * 100)%Q.
Proof.
  intros Hu Ht. apply Qmult_le_0_compat; [|unfold Qle; simpl; lia].
  apply Qle_shift_div_l; [unfold Qlt; simpl; lia|].
  rewrite Qmult_0_l. unfold Qle; simpl; lia.
Qed.

Lemma count_status_nonneg (s : StatusEnum) (g : list UptimeRecord) :
  0 <= count_status s g.
Proof. unfold count_status. lia. Qed.

Lemma pct_bounds (u t : Z) (n : nat) :
  0 <= u <= t ->
  (0 <= py_round (if 0 <? t then inject_Z u / inject_Z t * 100 else 0)%Q n <= 100)%Q.
Proof.
  intros Hu. destruct (Z.ltb_spec 0 t).
  - split; [apply py_round_nonneg, pct_nonneg; lia|].
    apply (py_round_le _ _ 100), pct_le_100; lia.
  - split; [apply py_round_nonneg; unfold Qle; simpl; lia|].
    apply (py_round_le _ _ 100). unfold Qle; simpl; lia.
Qed.

(** X11. [get_server_stats] returns [None] exactly for a missing server;
    otherwise [total_checks] is the server's number of records, the overall
    and last-24h uptime percentages lie between 0 and 100, and the average
    response time is [None] when no record has a response time. *)
Theorem get_server_stats_spec (d : Database) (sid now : Z) :
  match get_server_stats d sid now with
  | None => get_server d sid = None
  | Some st =>
      get_server d sid <> None
      /\ st_total_checks st
         = Z.of_nat (List.length (filter (fun r => server_id r =? sid) (db_records d)))
      /\ (0 <= st_uptime_percentage st <= 100)%Q
      /\ (0 <= st_last_24h_uptime st <= 100)%Q
      /\ (filter_some (map response_time_ms
            (filter (fun r => server_id r =? sid) (db_records d))) = []
          -> st_avg_response_time_ms st = None)
  end.
Proof.
  unfold get_server_stats. destruct (get_server d sid) as [s|]; [|reflexivity].
  destruct (filter (fun r => server_id r =? sid) (db_records d)) as [|r0 rs] eqn:E.
  - repeat split; try discriminate; unfold Qle; simpl; lia.
  - set (records := r0 :: rs).
    split; [discriminate|]. split; [reflexivity|]. split.
    + apply pct_bounds. split; [apply count_status_nonneg|apply count_status_le].
    + split.
      * cbn [st_last_24h_uptime].
        destruct (filter _ records) as [|x xs] eqn:E2.
        -- split; [apply py_round_nonneg|apply (py_round_le _ _ 100)];
             unfold Qle; simpl; lia.
        -- pose proof (count_status_le UP (x :: xs)).
           pose proof (count_status_nonneg UP (x :: xs)).
           split; [apply py_round_nonneg, pct_nonneg|
                   apply (py_round_le _ _ 100), pct_le_100]; try lia; simpl; lia.
      * intros H. cbn [st_avg_response_time_ms]. subst records. now rewrite H.
Qed.

(** ** cleanup_old_records *)

Lemma length_filter_split {A} (f : A -> bool) (l : list A) :
  (List.length (filter (fun x => negb (f x)) l) + List.length (filter f l)
   = List.length l)%nat.
Proof.
  induction l as [|x l IH]; simpl; [reflexivity|].
  destruct (f x); simpl; lia.
Qed.

(** X12. [cleanup_old_records] keeps exactly the records with a timestamp at
    or after [now] minus [days] days, leaves the servers alone, and its row count plus
    the number of records kept is the number there were. *)
Theorem cleanup_old_records_spec (d : Database) (now days : Z) :
  let cutoff := now - days * 86400 in
  Z.of_nat (List.length (db_records (fst (cleanup_old_records d now days))))
    + snd (cleanup_old_records d now days)
  = Z.of_nat (List.length (db_records d))
  /\ (forall r, In r (db_records (fst (cleanup_old_records d now days)))
        <-> In r (db_records d) /\ cutoff <= timestamp r)
  /\ db_servers (fst (cleanup_old_records d now days)) = db_servers d.
Proof.
  intros cutoff. unfold cleanup_old_records; simpl. split; [|split; [|reflexivity]].
  - rewrite <- Nat2Z.inj_add. f_equal.
    apply (length_filter_split (fun r => timestamp r <? now - days * 86400)).
  - intros r. rewrite filter_In. subst cutoff.
    destruct (Z.ltb_spec (timestamp r) (now - days * 86400)); simpl;
      intuition (try lia; try discriminate).
Qed.

Lemma fetch_single_filter (g : UptimeRecord -> bool) (db : list UptimeRecord)
  (sid since : Z) :
  (forall r, since <= timestamp r -> g r = true) ->
  fetch_single (filter g db) sid since = fetch_single db sid since.
Proof.
  intros Hg. unfold fetch_single. rewrite filter_filter'.
  apply filter_ext. intros r.
  destruct (Z.leb_spec since (timestamp r)).
  - rewrite Hg by lia. reflexivity.
  - rewrite !andb_false_r. reflexivity.
Qed.

(** X13. Cleaning up records older than at least one day, at an instant no
    later than the bars are computed, never changes the 24 hourly bars
    [get_uptime_bars] returns. *)
Theorem cleanup_keeps_uptime_bars (d : Database) (server : Server)
  (now_cleanup now days requested_days : Z) :
  1 <= days -> now_cleanup <= now ->
  get_uptime_bars (fst (cleanup_old_records d now_cleanup days)) server now
    requested_days
  = get_uptime_bars d server now requested_days.
Proof.
  intros Hd Hn. unfold get_uptime_bars, _calculate_bars, cleanup_old_records.
  cbn [fst db_records].
  rewrite fetch_single_filter; [reflexivity|].
  intros r Hr. unfold window_since, unit_seconds in Hr.
  apply negb_true_iff. apply Z.ltb_ge. lia.
Qed.

Lemma cleanup_keeps_uptime_bars_witness :
  1 <= 1 /\ 91000 <= 91000 /\
  List.length (db_records (fst (cleanup_old_records demo_store 91000 1))) = 2%nat /\
  get_uptime_bars (fst (cleanup_old_records demo_store 91000 1)) demo_api 91000 1
  = get_uptime_bars demo_store demo_api 91000 1.
Proof.
  assert (H1 : 1 <= 1) by lia.
  assert (H2 : 91000 <= 91000) by lia.
  split; [exact H1|]. split; [exact H2|]. split; [vm_compute; reflexivity|].
  exact (cleanup_keeps_uptime_bars demo_store demo_api 91000 91000 1 1 H1 H2).
Defined.

(** ** ping_server_now *)

(** X14. [ping_server_now] on a missing server returns [None] and stores
    nothing; otherwise it appends exactly one record, stamped with the
    current instant, for that server, whose status and response time are
    what [ping_server] returned, and returns that record. *)
Theorem ping_server_now_spec (d : Database) (sid now : Z) (t0 t1 : Q)
  (r : get_result) :
  match snd (ping_server_now d sid now t0 t1 r) with
  | None => get_server d sid = None /\ fst (ping_server_now d sid now t0 t1 r) = d
  | Some rec =>
      get_server d sid <> None
      /\ server_id rec = sid
      /\ timestamp rec = now
      /\ (status rec, response_time_ms rec) = ping_server t0 t1 r
      /\ db_records (fst (ping_server_now d sid now t0 t1 r)) = db_records d ++ [rec]
      /\ db_servers (fst (ping_server_now d sid now t0 t1 r)) = db_servers d
  end.
Proof.
  unfold ping_server_now. destruct (get_server d sid) as [s|] eqn:E; [|simpl; auto].
  assert (Hid : srv_id s = sid).
  { unfold get_server in E. apply find_some in E. destruct E as [_ E].
    now apply Z.eqb_eq. }
  destruct (ping_server t0 t1 r) as [st rt]. simpl.
  repeat split; auto; discriminate.
Qed.

Lemma max_ts_app_last (recs : list UptimeRecord) (rec : UptimeRecord) (sid : Z) :
  server_id rec = sid ->
  (forall x, In x recs -> server_id x = sid -> timestamp x <= timestamp rec) ->
  max_ts (recs ++ [rec]) sid = Some (timestamp rec).
Proof.
  intros Hs Hle. unfold max_ts. rewrite fold_left_app. simpl.
  rewrite Hs, Z.eqb_refl.
  assert (G : forall acc,
    (forall m, acc = Some m -> m <= timestamp rec) ->
    forall m, fold_left (fun acc r =>
               if server_id r =? sid then
                 match acc with
                 | Some m => Some (Z.max m (timestamp r))
                 | None => Some (timestamp r)
                 end
               else acc) recs acc = Some m -> m <= timestamp rec).
  { clear Hs. induction recs as [|x recs IH]; intros acc Hacc; simpl; [auto|].
    apply IH; [intros y Hy Hys; apply Hle; simpl; auto|].
    intros m Hm. destruct (Z.eqb_spec (server_id x) sid); [|auto].
    assert (timestamp x <= timestamp rec) by (apply Hle; simpl; auto).
    destruct acc as [a|]; inversion Hm; subst;
      [specialize (Hacc a eq_refl); lia|lia]. }
  specialize (G None ltac:(discriminate)).
  destruct (fold_left _ recs None) as [m|]; [|reflexivity].
  specialize (G m eq_refl). f_equal. lia.
Qed.

(** X15. After a manual ping at an instant no earlier than any of the server's
    records, [get_servers_with_status] shows that instant as the server's
    [last_ping]. *)
Theorem ping_server_now_last_ping (d : Database) (sid now : Z) (t0 t1 : Q)
  (r : get_result) (e : ServerWithStatus) :
  (forall x, In x (db_records d) -> server_id x = sid -> timestamp x <= now) ->
  In e (get_servers_with_status (fst (ping_server_now d sid now t0 t1 r))) ->
  ws_id e = sid ->
  get_server d sid <> None ->
  ws_last_ping e = Some now.
Proof.
  intros Hle He Hid Hs.
  unfold get_servers_with_status in He. apply in_map_iff in He.
  destruct He as [s [<- _]]. simpl in Hid |- *.
  destruct (latest_record_max_ts
              (db_records (fst (ping_server_now d sid now t0 t1 r))) (srv_id s))
    as [H1 _].
  rewrite H1, Hid.
  unfold ping_server_now in *. destruct (get_server d sid) as [s0|] eqn:E;
    [|congruence].
  assert (Hid0 : srv_id s0 = sid).
  { unfold get_server in E. apply find_some in E. destruct E as [_ E].
    now apply Z.eqb_eq. }
  destruct (ping_server t0 t1 r) as [st rt]. cbn [fst db_records].
  apply (max_ts_app_last _ (new_record (srv_id s0) st rt now)); simpl; auto.
Qed.

Lemma ping_server_now_last_ping_witness :
  (forall x, In x (db_records demo_store) -> server_id x = 1 ->
             timestamp x <= 9000) /\
  In (mkServerWithStatus 1 "api" "https://api.example.com" None 0 100
        (Some UP) (Some 9000) (Some (py_round (((1 # 10) - 0) * 1000)%Q 2)))
     (get_servers_with_status
        (fst (ping_server_now demo_store 1 9000 0 (1 # 10) (Response 200)))) /\
  ws_last_ping (mkServerWithStatus 1 "api" "https://api.example.com" None 0 100
                  (Some UP) (Some 9000) (Some (py_round (((1 # 10) - 0) * 1000)%Q 2)))
  = Some 9000.
Proof.
  assert (H1 : forall x, In x (db_records demo_store) -> server_id x = 1 ->
                         timestamp x <= 9000).
  { intros x Hx Hs. simpl in Hx.
    destruct Hx as [<-|[<-|[<-|[]]]]; simpl in *; lia. }
  assert (H2 : In (mkServerWithStatus 1 "api" "https://api.example.com" None 0 100
                     (Some UP) (Some 9000) (Some (py_round (((1 # 10) - 0) * 1000)%Q 2)))
                  (get_servers_with_status
                     (fst (ping_server_now demo_store 1 9000 0 (1 # 10)
                             (Response 200)))))
    by (vm_compute; left; reflexivity).
  assert (H3 : get_server demo_store 1 <> None) by (vm_compute; discriminate).
  split; [exact H1|]. split; [exact H2|].
  exact (ping_server_now_last_ping demo_store 1 9000 0 (1 # 10) (Response 200)
           _ H1 H2 eq_refl H3).
Defined.
